(** * The Material aggregate of tania-core (src/assets/domain/material.go)

    A shallow embedding of the Go source: value objects (Money, the
    quantity units), the Material aggregate with its event buffer, the
    fold [Transition] and the commands, followed by the properties of
    the aggregate. *)

From Stdlib Require Import String Ascii List ZArith Bool Lia QArith Qpower.
From Stdlib Require Import Floats.SpecFloat.
Import ListNotations.
Open Scope string_scope.

(** ** Go values *)

(** The outcome of a Go call that returns [(T, error)]: the value with a
    nil error, a non-nil error built by [errors.New msg], or a run-time
    panic that unwinds the call. *)
Inductive result (A : Type) : Type :=
| Ok (a : A)
| Err (msg : string)
| Panic (msg : string).

Arguments Ok {A} a.
Arguments Err {A} msg.
Arguments Panic {A} msg.

Definition bind {A B : Type} (r : result A) (k : A -> result B) : result B :=
  match r with
  | Ok a => k a
  | Err msg => Err msg
  | Panic msg => Panic msg
  end.

Notation "x <- r ;; k" := (bind r (fun x => k))
  (at level 61, r at next level, right associativity).

(** A Go [error] return value: [None] is nil. *)
Definition error := option string.

(** What the Go runtime reports when a method is called on a nil interface. *)
Definition nil_dereference : string :=
  "runtime error: invalid memory address or nil pointer dereference".

(** [float32]: an IEEE 754 binary32 datum (precision 24, emax 128). *)
Definition float32 := spec_float.
Definition float32_valid (x : float32) : bool := valid_binary 24 128 x.
Definition float32_zero : float32 := S754_zero false.
Definition float32_of_Z (z : Z) : float32 := binary_normalize 24 128 z 0 false.

(** The Go comparison [x <= y] on float32 (false as soon as one side is NaN). *)
Definition float32_le (x y : float32) : bool := SFleb x y.

(** The rational number a zero or finite float32 stands for. *)
Definition float32_value (x : float32) : option Q :=
  match x with
  | S754_zero _ => Some 0%Q
  | S754_finite s m e => Some (inject_Z (cond_Zopp s (Zpos m)) * 2 ^ e)%Q
  | S754_infinity _ | S754_nan => None
  end.

(** [uuid.UUID] is [[16]byte]; its zero value is sixteen zero bytes. *)
Definition UUID := list Byte.byte.
Definition UUID_zero : UUID := repeat Byte.x00 16.

(** [time.Time] is only copied around by this file: an instant. *)
Definition Time := Z.

(** ** Money *)

Definition MoneyEUR : string := "EUR".
Definition MoneyIDR : string := "IDR".

(** [type Money interface { Code; Symbol; Amount; SetAmount }] *)
Class MoneyMethods (T : Type) : Type := {
  Code : T -> string;
  Symbol : T -> string;
  Amount : T -> string;
  SetAmount : T -> string -> T
}.

Record EUR : Type := mkEUR { amount : string }.

(** The methods of [EUR]. [SetAmount] has a pointer receiver and writes
    the cell; the cell is modelled by its content. *)
#[export] Instance EUR_Money : MoneyMethods EUR := {
  Code _ := MoneyEUR;
  Symbol _ := "€";
  Amount e := amount e;
  SetAmount _ a := mkEUR a
}.

(** A non-nil interface value: a dynamic type that has the methods, and
    a value of it. *)
Record MoneyValue : Type := mkMoney {
  money_type : Type;
  money_methods : MoneyMethods money_type;
  money_data : money_type
}.

Arguments mkMoney {money_type money_methods} money_data.

(** A value of interface type [Money]; [None] is the nil interface. *)
Definition Money := option MoneyValue.

Definition Money_Code (m : MoneyValue) : string :=
  @Code _ (money_methods m) (money_data m).
Definition Money_Symbol (m : MoneyValue) : string :=
  @Symbol _ (money_methods m) (money_data m).
Definition Money_Amount (m : MoneyValue) : string :=
  @Amount _ (money_methods m) (money_data m).
Definition Money_SetAmount (m : MoneyValue) (a : string) : MoneyValue :=
  @mkMoney _ (money_methods m) (@SetAmount _ (money_methods m) (money_data m) a).

Definition CreateMoney (price priceUnit : string) : result MoneyValue :=
  if String.eqb price "" then Err "price cannot be empty"
  else if String.eqb priceUnit (Code (mkEUR "")) then
    let money := mkMoney (mkEUR "") in
    Ok (Money_SetAmount money price)
  else Err "money not found".

(** ** Quantities and their units *)

Definition MaterialUnitSeeds : string := "SEEDS".
Definition MaterialUnitPackets : string := "PACKETS".
Definition MaterialUnitGram : string := "GRAM".
Definition MaterialUnitKilogram : string := "KILOGRAM".
Definition MaterialUnitBags : string := "BAGS".
Definition MaterialUnitBottles : string := "BOTTLES".
Definition MaterialUnitCubicMetre : string := "CUBIC_METRE".
Definition MaterialUnitPieces : string := "PIECES".
Definition MaterialUnitUnits : string := "UNITS".

Module MaterialQuantityUnit.
Record t : Type := mk { Code : string; Label : string }.

(** The zero value [MaterialQuantityUnit{}]. *)
Definition zero : t := mk "" "".

(** Go's [==] on the struct: both fields equal. *)
Definition eqb (a b : t) : bool :=
  String.eqb (Code a) (Code b) && String.eqb (Label a) (Label b).
End MaterialQuantityUnit.

Module MaterialQuantity.
Record t : Type := mk { Value : float32; Unit : MaterialQuantityUnit.t }.
Definition zero : t := mk float32_zero MaterialQuantityUnit.zero.
End MaterialQuantity.

(** ** MaterialType *)

(** What a method call does: it returns a value, or it panics (a value
    method reached through a nil pointer, for one). *)
Inductive call (A : Type) : Type :=
| Returns (a : A)
| Panics (msg : string).

Arguments Returns {A} a.
Arguments Panics {A} msg.

(** Modelled from the spec: the interface [MaterialType] is declared
    outside material.go; the spec describes it as an external
    polymorphic capability requiring only a [Code()] string accessor.
    The dynamic value may be a nil pointer, on which the call of a
    value method panics. *)
Class MaterialTypeMethods (T : Type) : Type := {
  TypeCode : T -> call string
}.

Record MaterialTypeValue : Type := mkMaterialType {
  material_type : Type;
  material_type_methods : MaterialTypeMethods material_type;
  material_type_data : material_type
}.

Arguments mkMaterialType {material_type material_type_methods} material_type_data.

(** A value of interface type [MaterialType]; [None] is the nil interface. *)
Definition MaterialType := option MaterialTypeValue.

(** The call [materialType.Code()]: it panics on the nil interface,
    and on a non-nil interface when the method of the dynamic type
    panics. *)
Definition MaterialType_Code (materialType : MaterialType) : result string :=
  match materialType with
  | None => Panic nil_dereference
  | Some v =>
      match @TypeCode _ (material_type_methods v) (material_type_data v) with
      | Returns code => Ok code
      | Panics msg => Panic msg
      end
  end.

(** Modelled from the spec: the constant [MaterialTypeSeedCode] is
    declared outside material.go; the spec resolves seed units with the
    type code ["SEED"]. *)
Definition MaterialTypeSeedCode : string := "SEED".

(** Modelled from the spec: the other seven type-code constants are
    declared outside material.go and the spec does not give their
    values, so they are taken as parameters. *)
Class MaterialTypeCodes : Type := {
  MaterialTypeAgrochemicalCode : string;
  MaterialTypeGrowingMediumCode : string;
  MaterialTypeLabelAndCropSupportCode : string;
  MaterialTypeSeedingContainerCode : string;
  MaterialTypePostHarvestSupplyCode : string;
  MaterialTypePlantCode : string;
  MaterialTypeOtherCode : string
}.

(** Modelled from the spec: a seed material type ("SeedType"), whose
    [Code()] is the seed code. *)
Record MaterialTypeSeed : Type := mkMaterialTypeSeed { }.

#[export] Instance MaterialTypeSeed_methods : MaterialTypeMethods MaterialTypeSeed := {
  TypeCode _ := Returns MaterialTypeSeedCode
}.

Definition SeedType : MaterialType := Some (mkMaterialType mkMaterialTypeSeed).

(** What the Go runtime reports when the value method [Code] is called
    through a nil [*MaterialTypeSeed]. *)
Definition nil_pointer_method : string :=
  "value method domain.MaterialTypeSeed.Code called using nil *MaterialTypeSeed pointer".

(** The pointer type [*MaterialTypeSeed] has the method too: [None] is
    the nil pointer, through which the call panics. *)
#[export] Instance MaterialTypeSeed_pointer_methods
  : MaterialTypeMethods (option MaterialTypeSeed) := {
  TypeCode p :=
    match p with
    | Some seed => TypeCode seed
    | None => Panics nil_pointer_method
    end
}.

(** The interface value holding a nil [*MaterialTypeSeed]: it is not
    the nil interface. *)
Definition NilSeedPointer : MaterialType :=
  Some (mkMaterialType (None : option MaterialTypeSeed)).

(** An instance of the seven parameters, to run the definitions on
    concrete inputs. *)
Definition tania_codes : MaterialTypeCodes := {|
  MaterialTypeAgrochemicalCode := "AGROCHEMICAL";
  MaterialTypeGrowingMediumCode := "GROWING_MEDIUM";
  MaterialTypeLabelAndCropSupportCode := "LABEL_AND_CROP_SUPPORT";
  MaterialTypeSeedingContainerCode := "SEEDING_CONTAINER";
  MaterialTypePostHarvestSupplyCode := "POST_HARVEST_SUPPLY";
  MaterialTypePlantCode := "PLANT";
  MaterialTypeOtherCode := "OTHER"
|}.

(** ** Events

    The four event structs are declared outside material.go; their
    fields are the ones its composite literals and its fold use. *)

Module MaterialCreated.
Record t : Type := mk {
  UID : UUID;
  Name : string;
  PricePerUnit : Money;
  Type_ : MaterialType;
  Quantity : MaterialQuantity.t;
  ExpirationDate : option Time;
  Notes : option string;
  ProducedBy : option string;
  IsExpense : option bool
}.
End MaterialCreated.

Module MaterialNameChanged.
Record t : Type := mk { UID : UUID; Name : string }.
End MaterialNameChanged.

Module MaterialPriceChanged.
Record t : Type := mk { UID : UUID; Price : Money }.
End MaterialPriceChanged.

Module MaterialQuantityChanged.
Record t : Type := mk { UID : UUID; Quantity : MaterialQuantity.t }.
End MaterialQuantityChanged.

(** An event is an [interface{}]: one of the four structs, or a value
    of any other dynamic type (named by [dynamicType]). *)
Inductive Event : Type :=
| EvMaterialCreated (e : MaterialCreated.t)
| EvMaterialNameChanged (e : MaterialNameChanged.t)
| EvMaterialPriceChanged (e : MaterialPriceChanged.t)
| EvMaterialQuantityChanged (e : MaterialQuantityChanged.t)
| EvOther (dynamicType : string).

(** ** The aggregate *)

(** Optional attributes are Go pointers: [None] is nil, [Some v] a
    pointer to [v] (no function of this file writes through them). *)
Record Material : Type := mkMaterial {
  UID : UUID;
  Name : string;
  PricePerUnit : Money;
  Type_ : MaterialType;
  Quantity : MaterialQuantity.t;
  ExpirationDate : option Time;
  Notes : option string;
  IsExpense : option bool;
  ProducedBy : option string;
  Version : Z;
  UncommittedChanges : list Event
}.

(** The zero value [Material{}]. *)
Definition Material_zero : Material := {|
  UID := UUID_zero;
  Name := "";
  PricePerUnit := None;
  Type_ := None;
  Quantity := MaterialQuantity.zero;
  ExpirationDate := None;
  Notes := None;
  IsExpense := None;
  ProducedBy := None;
  Version := 0;
  UncommittedChanges := []
|}.

(** [state.UncommittedChanges = changes] *)
Definition set_UncommittedChanges (state : Material) (changes : list Event) : Material := {|
  UID := UID state;
  Name := Name state;
  PricePerUnit := PricePerUnit state;
  Type_ := Type_ state;
  Quantity := Quantity state;
  ExpirationDate := ExpirationDate state;
  Notes := Notes state;
  IsExpense := IsExpense state;
  ProducedBy := ProducedBy state;
  Version := Version state;
  UncommittedChanges := changes
|}.

(** The type switch of the source has the single case [MaterialCreated]. *)
Definition Transition (state : Material) (event : Event) : Material :=
  match event with
  | EvMaterialCreated e => {|
      UID := MaterialCreated.UID e;
      Name := MaterialCreated.Name e;
      PricePerUnit := MaterialCreated.PricePerUnit e;
      Type_ := MaterialCreated.Type_ e;
      Quantity := MaterialCreated.Quantity e;
      ExpirationDate := MaterialCreated.ExpirationDate e;
      Notes := MaterialCreated.Notes e;
      IsExpense := MaterialCreated.IsExpense e;
      ProducedBy := MaterialCreated.ProducedBy e;
      Version := Version state;
      UncommittedChanges := UncommittedChanges state
    |}
  | _ => state
  end.

Definition TrackChange (state : Material) (event : Event) : Material :=
  Transition
    (set_UncommittedChanges state (UncommittedChanges state ++ [event]))
    event.

Definition validateQuantity (quantity : float32) : error :=
  if float32_le quantity float32_zero then Some "Cannot be empty" else None.

(** The command [ChangeName] on the aggregate [m]: the aggregate after
    the call and what the call returned. *)
Definition ChangeName (m : Material) (name : string) : Material * result unit :=
  if String.eqb name "" then (m, Err "cannot be empty")
  else if (String.length name <=? 5)%nat then (m, Err "too few characters")
  else
    (TrackChange m
       (EvMaterialNameChanged (MaterialNameChanged.mk (UID m) name)),
     Ok tt).

Definition ChangePricePerUnit (m : Material) (price priceUnit : string)
  : Material * result unit :=
  match CreateMoney price priceUnit with
  | Ok money =>
      (TrackChange m
         (EvMaterialPriceChanged (MaterialPriceChanged.mk (UID m) (Some money))),
       Ok tt)
  | Err msg => (m, Err msg)
  | Panic msg => (m, Panic msg)
  end.

Section Units.
Context {codes : MaterialTypeCodes}.

(** The [switch] takes the first case whose constant equals the code;
    [nil] is the empty slice. *)
Definition MaterialQuantityUnits (materialTypeCode : string)
  : list MaterialQuantityUnit.t :=
  if String.eqb materialTypeCode MaterialTypeSeedCode then
    [ MaterialQuantityUnit.mk MaterialUnitSeeds "Seeds";
      MaterialQuantityUnit.mk MaterialUnitPackets "Packets";
      MaterialQuantityUnit.mk MaterialUnitGram "Gram";
      MaterialQuantityUnit.mk MaterialUnitKilogram "Kilogram" ]
  else if String.eqb materialTypeCode MaterialTypeAgrochemicalCode then
    [ MaterialQuantityUnit.mk MaterialUnitPackets "Packets";
      MaterialQuantityUnit.mk MaterialUnitBottles "Bottles";
      MaterialQuantityUnit.mk MaterialUnitBags "Bags" ]
  else if String.eqb materialTypeCode MaterialTypeGrowingMediumCode then
    [ MaterialQuantityUnit.mk MaterialUnitBags "Bags";
      MaterialQuantityUnit.mk MaterialUnitCubicMetre "Cubic Metre" ]
  else if String.eqb materialTypeCode MaterialTypeLabelAndCropSupportCode then
    [ MaterialQuantityUnit.mk MaterialUnitPieces "Pieces" ]
  else if String.eqb materialTypeCode MaterialTypeSeedingContainerCode then
    [ MaterialQuantityUnit.mk MaterialUnitPieces "Pieces" ]
  else if String.eqb materialTypeCode MaterialTypePostHarvestSupplyCode then
    [ MaterialQuantityUnit.mk MaterialUnitPieces "Pieces" ]
  else if String.eqb materialTypeCode MaterialTypePlantCode then
    [ MaterialQuantityUnit.mk MaterialUnitUnits "Units";
      MaterialQuantityUnit.mk MaterialUnitPackets "Packets" ]
  else if String.eqb materialTypeCode MaterialTypeOtherCode then
    [ MaterialQuantityUnit.mk MaterialUnitPieces "Pieces" ]
  else [].

(** The [for ... range] loop with its early [return v]. *)
Fixpoint search_unit (units : list MaterialQuantityUnit.t) (code : string)
  : MaterialQuantityUnit.t :=
  match units with
  | [] => MaterialQuantityUnit.zero
  | v :: rest =>
      if String.eqb (MaterialQuantityUnit.Code v) code then v
      else search_unit rest code
  end.

Definition GetMaterialQuantityUnit (materialTypeCode code : string)
  : MaterialQuantityUnit.t :=
  search_unit (MaterialQuantityUnits materialTypeCode) code.

Definition validateQuantityUnit (quantityUnit : string) (materialType : MaterialType)
  : result MaterialQuantityUnit.t :=
  typeCode <- MaterialType_Code materialType ;;
  let qu := GetMaterialQuantityUnit typeCode quantityUnit in
  if MaterialQuantityUnit.eqb qu MaterialQuantityUnit.zero
  then Err "Cannot be empty"
  else Ok qu.

(** [newV4] is what the call [uuid.NewV4()] returned. *)
Definition CreateMaterial
    (newV4 : result UUID)
    (name price priceUnit : string)
    (materialType : MaterialType)
    (quantity : float32)
    (quantityUnit : string)
    (expirationDate : option Time)
    (notes producedBy : option string)
    (isExpense : option bool) : result Material :=
  uid <- newV4 ;;
  money <- CreateMoney price priceUnit ;;
  match materialType with
  | None => Err "cannot be empty"
  | Some _ =>
      match validateQuantity quantity with
      | Some msg => Err msg
      | None =>
          qu <- validateQuantityUnit quantityUnit materialType ;;
          let initial := {|
            UID := uid;
            Name := name;
            PricePerUnit := Some money;
            Type_ := materialType;
            Quantity := MaterialQuantity.mk quantity qu;
            ExpirationDate := expirationDate;
            Notes := notes;
            IsExpense := isExpense;
            ProducedBy := producedBy;
            Version := 0;
            UncommittedChanges := []
          |} in
          Ok (TrackChange initial
                (EvMaterialCreated {|
                   MaterialCreated.UID := UID initial;
                   MaterialCreated.Name := Name initial;
                   MaterialCreated.PricePerUnit := PricePerUnit initial;
                   MaterialCreated.Type_ := Type_ initial;
                   MaterialCreated.Quantity := Quantity initial;
                   MaterialCreated.ExpirationDate := ExpirationDate initial;
                   MaterialCreated.Notes := Notes initial;
                   MaterialCreated.ProducedBy := ProducedBy initial;
                   MaterialCreated.IsExpense := IsExpense initial
                 |}))
      end
  end.

Definition ChangeQuantityUnit (m : Material) (quantity : float32)
    (quantityUnit : string) (materialType : MaterialType)
  : Material * result unit :=
  match validateQuantity quantity with
  | Some msg => (m, Err msg)
  | None =>
      match validateQuantityUnit quantityUnit materialType with
      | Ok qu =>
          (TrackChange m
             (EvMaterialQuantityChanged
                (MaterialQuantityChanged.mk (UID m)
                   (MaterialQuantity.mk quantity qu))),
           Ok tt)
      | Err msg => (m, Err msg)
      | Panic msg => (m, Panic msg)
      end
  end.
End Units.


(** ** Sequences of commands and replay *)

Inductive Command : Type :=
| CmdChangeName (name : string)
| CmdChangePricePerUnit (price priceUnit : string)
| CmdChangeQuantityUnit (quantity : float32) (quantityUnit : string)
    (materialType : MaterialType).

Section Commands.
Context {codes : MaterialTypeCodes}.

Definition run_command (m : Material) (c : Command) : Material * result unit :=
  match c with
  | CmdChangeName name => ChangeName m name
  | CmdChangePricePerUnit price priceUnit => ChangePricePerUnit m price priceUnit
  | CmdChangeQuantityUnit quantity quantityUnit materialType =>
      ChangeQuantityUnit m quantity quantityUnit materialType
  end.

(** The commands one after the other on the same aggregate, as long as
    each returns a nil error. *)
Fixpoint run_commands (m : Material) (cs : list Command) : Material * result unit :=
  match cs with
  | [] => (m, Ok tt)
  | c :: rest =>
      match run_command m c with
      | (m', Ok _) => run_commands m' rest
      | failed => failed
      end
  end.

(** The event a command tracks when its validation passes. *)
Definition emitted (m : Material) (c : Command) : result Event :=
  match c with
  | CmdChangeName name =>
      if String.eqb name "" then Err "cannot be empty"
      else if (String.length name <=? 5)%nat then Err "too few characters"
      else Ok (EvMaterialNameChanged (MaterialNameChanged.mk (UID m) name))
  | CmdChangePricePerUnit price priceUnit =>
      money <- CreateMoney price priceUnit ;;
      Ok (EvMaterialPriceChanged (MaterialPriceChanged.mk (UID m) (Some money)))
  | CmdChangeQuantityUnit quantity quantityUnit materialType =>
      match validateQuantity quantity with
      | Some msg => Err msg
      | None =>
          qu <- validateQuantityUnit quantityUnit materialType ;;
          Ok (EvMaterialQuantityChanged
                (MaterialQuantityChanged.mk (UID m)
                   (MaterialQuantity.mk quantity qu)))
      end
  end.
(** A type code that none of the eight cases of the switch matches. *)
Definition unrecognized (materialTypeCode : string) : Prop :=
  materialTypeCode <> MaterialTypeSeedCode /\
  materialTypeCode <> MaterialTypeAgrochemicalCode /\
  materialTypeCode <> MaterialTypeGrowingMediumCode /\
  materialTypeCode <> MaterialTypeLabelAndCropSupportCode /\
  materialTypeCode <> MaterialTypeSeedingContainerCode /\
  materialTypeCode <> MaterialTypePostHarvestSupplyCode /\
  materialTypeCode <> MaterialTypePlantCode /\
  materialTypeCode <> MaterialTypeOtherCode.

End Commands.

(** Folding an event sequence from the zero state. *)
Definition replay (events : list Event) : Material :=
  fold_left Transition events Material_zero.

(** The nine state fields of two aggregates agree (the bookkeeping
    fields [Version] and [UncommittedChanges] are left out). *)
Definition same_fields (a b : Material) : Prop :=
  UID a = UID b /\ Name a = Name b /\ PricePerUnit a = PricePerUnit b /\
  Type_ a = Type_ b /\ Quantity a = Quantity b /\
  ExpirationDate a = ExpirationDate b /\ Notes a = Notes b /\
  IsExpense a = IsExpense b /\ ProducedBy a = ProducedBy b.

(** The state fields of an aggregate are those of a creation event. *)
Definition fields_of_event (m : Material) (e : MaterialCreated.t) : Prop :=
  UID m = MaterialCreated.UID e /\ Name m = MaterialCreated.Name e /\
  PricePerUnit m = MaterialCreated.PricePerUnit e /\
  Type_ m = MaterialCreated.Type_ e /\
  Quantity m = MaterialCreated.Quantity e /\
  ExpirationDate m = MaterialCreated.ExpirationDate e /\
  Notes m = MaterialCreated.Notes e /\
  ProducedBy m = MaterialCreated.ProducedBy e /\
  IsExpense m = MaterialCreated.IsExpense e.

(** The state of an aggregate is the replay of its buffer. *)
Definition replayable (m : Material) : Prop :=
  same_fields (replay (UncommittedChanges m)) m.

(** The event [CreateMaterial] builds from its inputs. *)
Definition created_event (uid : UUID) (name : string) (money : MoneyValue)
    (materialType : MaterialType) (quantity : float32)
    (qu : MaterialQuantityUnit.t) (expirationDate : option Time)
    (notes producedBy : option string) (isExpense : option bool)
  : MaterialCreated.t := {|
  MaterialCreated.UID := uid;
  MaterialCreated.Name := name;
  MaterialCreated.PricePerUnit := Some money;
  MaterialCreated.Type_ := materialType;
  MaterialCreated.Quantity := MaterialQuantity.mk quantity qu;
  MaterialCreated.ExpirationDate := expirationDate;
  MaterialCreated.Notes := notes;
  MaterialCreated.ProducedBy := producedBy;
  MaterialCreated.IsExpense := isExpense
|}.

(** ** Concrete inputs *)

Definition float32_neg_one : float32 := float32_of_Z (-1).
Definition float32_50 : float32 := float32_of_Z 50.
Definition float32_100 : float32 := float32_of_Z 100.

(** The float32 nearest to 0.01 (the constant [0.01] converted to
    float32): 10737418 * 2^-30. *)
Definition float32_0_01 : float32 :=
  SFdiv 24 128 (float32_of_Z 1) (float32_of_Z 100).

Definition sample_uid : UUID :=
  [ Byte.x6b; Byte.xa7; Byte.xb8; Byte.x10; Byte.x9d; Byte.xad; Byte.x41; Byte.xd1;
    Byte.x80; Byte.xb4; Byte.x00; Byte.xc0; Byte.x4f; Byte.xd4; Byte.x30; Byte.xc8 ].

Definition unit_seeds : MaterialQuantityUnit.t :=
  MaterialQuantityUnit.mk "SEEDS" "Seeds".
Definition unit_gram : MaterialQuantityUnit.t :=
  MaterialQuantityUnit.mk "GRAM" "Gram".
Definition unit_kilogram : MaterialQuantityUnit.t :=
  MaterialQuantityUnit.mk "KILOGRAM" "Kilogram".

(** The aggregate [Create("Tomato Seeds", "5.00", "EUR", SeedType, 100,
    "SEEDS", nil, nil, nil, nil)] returns when [uuid.NewV4()] gives
    [sample_uid]. *)
Definition tomato_created : MaterialCreated.t := {|
  MaterialCreated.UID := sample_uid;
  MaterialCreated.Name := "Tomato Seeds";
  MaterialCreated.PricePerUnit := Some (mkMoney (mkEUR "5.00"));
  MaterialCreated.Type_ := SeedType;
  MaterialCreated.Quantity := MaterialQuantity.mk float32_100 unit_seeds;
  MaterialCreated.ExpirationDate := None;
  MaterialCreated.Notes := None;
  MaterialCreated.ProducedBy := None;
  MaterialCreated.IsExpense := None
|}.

Definition tomato_seeds : Material := {|
  UID := sample_uid;
  Name := "Tomato Seeds";
  PricePerUnit := Some (mkMoney (mkEUR "5.00"));
  Type_ := SeedType;
  Quantity := MaterialQuantity.mk float32_100 unit_seeds;
  ExpirationDate := None;
  Notes := None;
  IsExpense := None;
  ProducedBy := None;
  Version := 0;
  UncommittedChanges := [EvMaterialCreated tomato_created]
|}.

Definition kilogram_changed : MaterialQuantityChanged.t :=
  MaterialQuantityChanged.mk sample_uid
    (MaterialQuantity.mk float32_50 unit_kilogram).

(** The tomato seeds after [ChangeQuantityUnit(50, "KILOGRAM", SeedType)]. *)
Definition tomato_kilogram : Material :=
  set_UncommittedChanges tomato_seeds
    [EvMaterialCreated tomato_created; EvMaterialQuantityChanged kilogram_changed].

Definition sample_commands : list Command :=
  [ CmdChangeName "Cherry Tomato";
    CmdChangePricePerUnit "6.00" "EUR";
    CmdChangeQuantityUnit float32_50 "KILOGRAM" SeedType ].

(** The tomato seeds after [sample_commands]. *)
Definition tomato_final : Material :=
  set_UncommittedChanges tomato_seeds
    [ EvMaterialCreated tomato_created;
      EvMaterialNameChanged (MaterialNameChanged.mk sample_uid "Cherry Tomato");
      EvMaterialPriceChanged
        (MaterialPriceChanged.mk sample_uid (Some (mkMoney (mkEUR "6.00"))));
      EvMaterialQuantityChanged kilogram_changed ].

(** ** Events and tables as data *)

(** The [UID] field of the four event structs. *)
Definition Event_UID (event : Event) : option UUID :=
  match event with
  | EvMaterialCreated e => Some (MaterialCreated.UID e)
  | EvMaterialNameChanged e => Some (MaterialNameChanged.UID e)
  | EvMaterialPriceChanged e => Some (MaterialPriceChanged.UID e)
  | EvMaterialQuantityChanged e => Some (MaterialQuantityChanged.UID e)
  | EvOther _ => None
  end.

Definition is_MaterialCreated (event : Event) : bool :=
  match event with
  | EvMaterialCreated _ => true
  | _ => false
  end.

(** The slices the cases of [MaterialQuantityUnits] return (three
    cases return the pieces slice), and the empty slice. *)
Definition unit_tables : list (list MaterialQuantityUnit.t) :=
  [ [ MaterialQuantityUnit.mk MaterialUnitSeeds "Seeds";
      MaterialQuantityUnit.mk MaterialUnitPackets "Packets";
      MaterialQuantityUnit.mk MaterialUnitGram "Gram";
      MaterialQuantityUnit.mk MaterialUnitKilogram "Kilogram" ];
    [ MaterialQuantityUnit.mk MaterialUnitPackets "Packets";
      MaterialQuantityUnit.mk MaterialUnitBottles "Bottles";
      MaterialQuantityUnit.mk MaterialUnitBags "Bags" ];
    [ MaterialQuantityUnit.mk MaterialUnitBags "Bags";
      MaterialQuantityUnit.mk MaterialUnitCubicMetre "Cubic Metre" ];
    [ MaterialQuantityUnit.mk MaterialUnitPieces "Pieces" ];
    [ MaterialQuantityUnit.mk MaterialUnitUnits "Units";
      MaterialQuantityUnit.mk MaterialUnitPackets "Packets" ];
    [] ].

(** The nine unit-code constants of the source. *)
Definition unit_codes : list string :=
  [ MaterialUnitSeeds; MaterialUnitPackets; MaterialUnitGram;
    MaterialUnitKilogram; MaterialUnitBags; MaterialUnitBottles;
    MaterialUnitCubicMetre; MaterialUnitPieces; MaterialUnitUnits ].

(** An implementation of [MaterialType] whose [Code()] returns a given
    string, to build inputs of other types than seed. *)
Record MaterialTypeNamed : Type := mkMaterialTypeNamed { named_code : string }.

#[export] Instance MaterialTypeNamed_methods : MaterialTypeMethods MaterialTypeNamed := {
  TypeCode t := Returns (named_code t)
}.

Definition AgrochemicalType : MaterialType :=
  Some (mkMaterialType (mkMaterialTypeNamed "AGROCHEMICAL")).
Definition FertilizerType : MaterialType :=
  Some (mkMaterialType (mkMaterialTypeNamed "FERTILIZER")).

Definition unit_bottles : MaterialQuantityUnit.t :=
  MaterialQuantityUnit.mk "BOTTLES" "Bottles".
Definition unit_packets : MaterialQuantityUnit.t :=
  MaterialQuantityUnit.mk "PACKETS" "Packets".

(** ** Characters and bytes

    Go's [len] on a string counts bytes. The spec and the error message
    of [ChangeName] speak of characters: the count below is the one
    they mean, the code points of a UTF-8 string, that is its bytes
    other than the continuation bytes [10xxxxxx]. It is used to state
    where the byte count of the code departs from it, and by no
    function of the model. *)

Definition is_continuation_byte (c : ascii) : bool :=
  match c with
  | Ascii _ _ _ _ _ _ b6 b7 => b7 && negb b6
  end.

Fixpoint utf8_characters (s : string) : nat :=
  match s with
  | EmptyString => 0
  | String c rest =>
      ((if is_continuation_byte c then 0 else 1) + utf8_characters rest)%nat
  end.

(** Five letters of two bytes each. *)
Definition five_letters : string := "äöüéè".

(** * Properties *)

Section Properties.
Context {codes : MaterialTypeCodes}.
Local Open Scope list_scope.

Example create_tomato_seeds :
  CreateMaterial (Ok sample_uid) "Tomato Seeds" "5.00" "EUR" SeedType
    float32_100 "SEEDS" None None None None = Ok tomato_seeds.
Proof. reflexivity. Qed.

Example float32_0_01_bits : float32_0_01 = S754_finite false 10737418 (-30).
Proof. reflexivity. Qed.

Example float32_samples_valid :
  forallb float32_valid
    [float32_zero; float32_neg_one; float32_0_01; float32_50; float32_100] = true.
Proof. reflexivity. Qed.

(** ** The fold and the buffer *)

Lemma Transition_UncommittedChanges (state : Material) (event : Event) :
  UncommittedChanges (Transition state event) = UncommittedChanges state.
Proof. destruct event; reflexivity. Qed.

Lemma Transition_Version (state : Material) (event : Event) :
  Version (Transition state event) = Version state.
Proof. destruct event; reflexivity. Qed.

Lemma TrackChange_UncommittedChanges (state : Material) (event : Event) :
  UncommittedChanges (TrackChange state event)
  = UncommittedChanges state ++ [event].
Proof.
  unfold TrackChange. now rewrite Transition_UncommittedChanges.
Qed.

Lemma TrackChange_Version (state : Material) (event : Event) :
  Version (TrackChange state event) = Version state.
Proof.
  unfold TrackChange. now rewrite Transition_Version.
Qed.

(** C1. The claim asks the fold to write the name, the price or the
    quantity carried by a MaterialNameChanged, MaterialPriceChanged or
    MaterialQuantityChanged event into the state. The type switch of
    [Transition] has no case for these three events: the fold returns
    the state it was given, so the field keeps its old value. *)
Theorem Transition_drops_change_events :
  forall (state : Material) (n : MaterialNameChanged.t)
         (p : MaterialPriceChanged.t) (q : MaterialQuantityChanged.t),
    Transition state (EvMaterialNameChanged n) = state /\
    Transition state (EvMaterialPriceChanged p) = state /\
    Transition state (EvMaterialQuantityChanged q) = state.
Proof. intros; repeat split. Qed.

(** At the aggregate of the tomato seeds: after folding a name change
    to "Cherry Tomato" the name is still "Tomato Seeds". *)
Example Transition_name_change_lost :
  Name (Transition tomato_seeds
          (EvMaterialNameChanged (MaterialNameChanged.mk sample_uid "Cherry Tomato")))
  = "Tomato Seeds".
Proof. reflexivity. Qed.

(** ** Money *)

(** C7. [CreateMoney] fails on an empty amount; on a non-empty amount it
    fails with "money not found" for every currency code other than
    "EUR" (with such a code it fails whatever the amount), and with
    "EUR" it returns a Money whose [Amount()] is the
    amount given, whose [Symbol()] is the euro sign and whose [Code()]
    is "EUR". *)
Theorem CreateMoney_contract :
  forall price priceUnit : string,
    (price = "" -> CreateMoney price priceUnit = Err "price cannot be empty") /\
    (priceUnit <> "EUR" ->
       exists msg : string, CreateMoney price priceUnit = Err msg) /\
    (price <> "" -> priceUnit <> "EUR" ->
       CreateMoney price priceUnit = Err "money not found") /\
    (price <> "" -> priceUnit = "EUR" ->
       exists money : MoneyValue,
         CreateMoney price priceUnit = Ok money /\
         Money_Amount money = price /\
         Money_Symbol money = "€" /\
         Money_Code money = "EUR").
Proof.
  intros price priceUnit. unfold CreateMoney. repeat split.
  - intros ->. reflexivity.
  - intros Hu. apply String.eqb_neq in Hu.
    cbn [Code EUR_Money]. unfold MoneyEUR. rewrite Hu.
    destruct (String.eqb price ""); eauto.
  - intros Hp Hu.
    apply String.eqb_neq in Hp. rewrite Hp.
    apply String.eqb_neq in Hu. cbn [Code EUR_Money]. unfold MoneyEUR.
    now rewrite Hu.
  - intros Hp ->.
    apply String.eqb_neq in Hp. rewrite Hp. cbn.
    eexists. repeat split.
Qed.

Lemma CreateMoney_Ok_inv (price priceUnit : string) (money : MoneyValue) :
  CreateMoney price priceUnit = Ok money ->
  price <> "" /\ priceUnit = "EUR" /\ money = mkMoney (mkEUR price).
Proof.
  unfold CreateMoney.
  destruct (String.eqb_spec price "") as [|Hp]; [discriminate|].
  cbn [Code EUR_Money]. unfold MoneyEUR.
  destruct (String.eqb_spec priceUnit "EUR") as [->|]; [|discriminate].
  intros [= <-]. auto.
Qed.

(** ** ChangeName *)

(** [ChangeName] with lengths in bytes, as Go's [len] counts them: it
    fails with "cannot be empty" on the empty name, with "too few
    characters" on a non-empty name of at most 5 bytes (so it fails on
    every name of at most 5 bytes), and on every name of 6 bytes or
    more it succeeds and appends exactly one MaterialNameChanged event
    carrying the aggregate's uid and the new name. *)
Theorem ChangeName_validation :
  forall (m : Material) (name : string),
    (name = "" -> ChangeName m name = (m, Err "cannot be empty")) /\
    ((String.length name <= 5)%nat ->
       exists msg : string, ChangeName m name = (m, Err msg)) /\
    (name <> "" -> (String.length name <= 5)%nat ->
       ChangeName m name = (m, Err "too few characters")) /\
    ((6 <= String.length name)%nat ->
       exists m' : Material,
         ChangeName m name = (m', Ok tt) /\
         UncommittedChanges m'
         = UncommittedChanges m
             ++ [EvMaterialNameChanged (MaterialNameChanged.mk (UID m) name)]).
Proof.
  intros m name. unfold ChangeName. repeat split.
  - intros ->. reflexivity.
  - intros Hl. apply Nat.leb_le in Hl. rewrite Hl.
    destruct (String.eqb name ""); eauto.
  - intros Hn Hl.
    apply String.eqb_neq in Hn. rewrite Hn.
    apply Nat.leb_le in Hl. now rewrite Hl.
  - intros Hl.
    destruct (String.eqb_spec name "") as [->|_]; [cbn in Hl; lia|].
    destruct (Nat.leb_spec (String.length name) 5) as [|_]; [lia|].
    eexists. split; [reflexivity|].
    apply TrackChange_UncommittedChanges.
Qed.

(** C6. The claim asks for the error TooShort on every name of at most
    5 characters and the code's own message is "too few characters",
    but [ChangeName] compares [len(name)], the number of bytes: the
    name "äöüéè" has 5 characters and 10 bytes, and [ChangeName]
    accepts it and tracks a MaterialNameChanged event. *)
Theorem ChangeName_counts_bytes :
  forall m : Material,
    utf8_characters five_letters = 5%nat /\
    String.length five_letters = 10%nat /\
    ChangeName m five_letters
    = (TrackChange m
         (EvMaterialNameChanged (MaterialNameChanged.mk (UID m) five_letters)),
       Ok tt).
Proof. intros m. repeat split. Qed.

(** ** Units *)

Lemma search_unit_find (units : list MaterialQuantityUnit.t) (code : string) :
  search_unit units code
  = match find (fun v => String.eqb (MaterialQuantityUnit.Code v) code) units with
    | Some v => v
    | None => MaterialQuantityUnit.zero
    end.
Proof.
  induction units as [|v rest IH]; cbn; [reflexivity|].
  destruct (String.eqb (MaterialQuantityUnit.Code v) code); [reflexivity|exact IH].
Qed.

Lemma search_unit_absent (units : list MaterialQuantityUnit.t) (code : string) :
  (forall v, In v units -> MaterialQuantityUnit.Code v <> code) ->
  search_unit units code = MaterialQuantityUnit.zero.
Proof.
  induction units as [|v rest IH]; cbn; intros Habs; [reflexivity|].
  destruct (String.eqb_spec (MaterialQuantityUnit.Code v) code) as [Heq|_].
  - exfalso. apply (Habs v); auto.
  - apply IH. intros w Hw. apply Habs. auto.
Qed.

(** What the search returns is the zero value or a unit of the list
    with the code asked for. *)
Lemma search_unit_found (units : list MaterialQuantityUnit.t) (code : string) :
  search_unit units code = MaterialQuantityUnit.zero \/
  (In (search_unit units code) units /\
   MaterialQuantityUnit.Code (search_unit units code) = code).
Proof.
  induction units as [|v rest IH]; cbn; [left; reflexivity|].
  destruct (String.eqb_spec (MaterialQuantityUnit.Code v) code) as [Heq|_].
  - right. auto.
  - destruct IH as [IH|[IH1 IH2]]; [left|right]; auto.
Qed.

Lemma MaterialQuantityUnits_unrecognized (materialTypeCode : string) :
  unrecognized materialTypeCode -> MaterialQuantityUnits materialTypeCode = [].
Proof.
  unfold unrecognized, MaterialQuantityUnits.
  intros (H1 & H2 & H3 & H4 & H5 & H6 & H7 & H8).
  repeat match goal with
         | H : materialTypeCode <> _ |- _ =>
             apply String.eqb_neq in H; rewrite H; clear H
         end.
  reflexivity.
Qed.

(** C8. [GetMaterialQuantityUnit] searches the allowed units of the type
    code from the first to the last and returns the first unit whose
    code is the one asked for; it returns the zero-value unit whenever
    no allowed unit has that code, in particular for an unrecognized
    type code; it is a total function. For the type code "SEED" the
    unit "BAGS" resolves to the zero value and "GRAM" to the unit with
    code "GRAM" and label "Gram". *)
Theorem GetMaterialQuantityUnit_lookup :
  (forall materialTypeCode code : string,
     GetMaterialQuantityUnit materialTypeCode code
     = match find (fun v => String.eqb (MaterialQuantityUnit.Code v) code)
               (MaterialQuantityUnits materialTypeCode) with
       | Some v => v
       | None => MaterialQuantityUnit.zero
       end) /\
  (forall materialTypeCode code : string,
     (forall v, In v (MaterialQuantityUnits materialTypeCode) ->
                MaterialQuantityUnit.Code v <> code) ->
     GetMaterialQuantityUnit materialTypeCode code = MaterialQuantityUnit.zero) /\
  (forall materialTypeCode code : string,
     unrecognized materialTypeCode ->
     GetMaterialQuantityUnit materialTypeCode code = MaterialQuantityUnit.zero) /\
  GetMaterialQuantityUnit "SEED" "BAGS" = MaterialQuantityUnit.mk "" "" /\
  GetMaterialQuantityUnit "SEED" "GRAM" = MaterialQuantityUnit.mk "GRAM" "Gram".
Proof.
  unfold GetMaterialQuantityUnit. repeat split.
  - intros. apply search_unit_find.
  - intros t c. apply search_unit_absent.
  - intros t c Hun. now rewrite (MaterialQuantityUnits_unrecognized t Hun).
Qed.

(** ** Quantities *)

Lemma float32_le_zero (q : float32) :
  float32_le q float32_zero = true <->
  (exists s, q = S754_zero s) \/ (exists m e, q = S754_finite true m e) \/
  q = S754_infinity true.
Proof.
  destruct q as [s|s| |s m e]; cbn.
  - split; [intros _; left; eauto|reflexivity].
  - destruct s; cbn; split; auto; try discriminate.
    intros [[? [=]]|[[? [? [=]]]|[=]]].
  - split; [discriminate|]. intros [[? [=]]|[[? [? [=]]]|[=]]].
  - destruct s; cbn; split; auto; try discriminate.
    + intros _. right; left; eauto.
    + intros [[? [=]]|[[? [? [=]]]|[=]]].
Qed.

Lemma float32_value_nonpositive (q : float32) (v : Q) :
  float32_value q = Some v ->
  (float32_le q float32_zero = true <-> (v <= 0)%Q).
Proof.
  destruct q as [s|s| |s m e]; cbn; try discriminate.
  - intros [= <-]. split; [intros _; apply Qle_refl|reflexivity].
  - intros [= <-].
    assert (Hp : (0 < 2 ^ e)%Q) by (apply Qpower_0_lt; reflexivity).
    destruct (2 ^ e)%Q as [pn pd].
    unfold Qlt in Hp. cbn in Hp.
    destruct pn as [|pn|pn]; try (exfalso; lia).
    destruct s; unfold Qle; cbn; split; intros; try reflexivity; lia.
Qed.

(** C9. [validateQuantity] returns an error exactly when [quantity <= 0]
    holds in float32, that is for the zeros, the negative finite values
    and minus infinity, and for a zero or finite float exactly when the
    number it stands for is at most 0; every strictly positive value
    passes. It fails for 0 and -1 and passes for 0.01. *)
Theorem validateQuantity_positive :
  forall quantity : float32,
    (validateQuantity quantity = Some "Cannot be empty" \/
     validateQuantity quantity = None) /\
    (validateQuantity quantity <> None <->
     float32_le quantity float32_zero = true) /\
    (validateQuantity quantity <> None <->
     (exists s, quantity = S754_zero s) \/
     (exists m e, quantity = S754_finite true m e) \/
     quantity = S754_infinity true) /\
    (forall v : Q, float32_value quantity = Some v ->
       (validateQuantity quantity <> None <-> (v <= 0)%Q)) /\
    (forall v : Q, float32_value quantity = Some v -> (0 < v)%Q ->
       validateQuantity quantity = None) /\
    validateQuantity (S754_infinity false) = None /\
    validateQuantity float32_zero = Some "Cannot be empty" /\
    validateQuantity float32_neg_one = Some "Cannot be empty" /\
    validateQuantity float32_0_01 = None.
Proof.
  intros quantity.
  assert (Hle : validateQuantity quantity <> None <->
                float32_le quantity float32_zero = true).
  { unfold validateQuantity.
    destruct (float32_le quantity float32_zero); split;
      congruence. }
  split; [unfold validateQuantity; destruct (float32_le _ _); auto|].
  split; [exact Hle|].
  split; [rewrite <- float32_le_zero; exact Hle|].
  split; [intros v Hval; split|].
  - intros Herr. apply (float32_value_nonpositive _ _ Hval), Hle, Herr.
  - intros Hv. apply Hle, (float32_value_nonpositive _ _ Hval), Hv.
  - repeat split. intros v Hval Hpos.
    destruct (validateQuantity quantity) eqn:Hq; [|reflexivity].
    exfalso. apply (Qlt_not_le _ _ Hpos).
    apply (float32_value_nonpositive _ _ Hval), Hle. congruence.
Qed.

(** ** Unit validation *)

Lemma MaterialQuantityUnit_eqb_eq (a b : MaterialQuantityUnit.t) :
  MaterialQuantityUnit.eqb a b = true <-> a = b.
Proof.
  destruct a as [ca la], b as [cb lb]. unfold MaterialQuantityUnit.eqb. cbn.
  rewrite andb_true_iff, !String.eqb_eq. split.
  - intros [-> ->]. reflexivity.
  - intros [= -> ->]. auto.
Qed.

Lemma validateQuantityUnit_Ok_inv (quantityUnit : string)
    (materialType : MaterialType) (qu : MaterialQuantityUnit.t) :
  validateQuantityUnit quantityUnit materialType = Ok qu ->
  exists typeCode : string,
    MaterialType_Code materialType = Ok typeCode /\
    qu = GetMaterialQuantityUnit typeCode quantityUnit /\
    In qu (MaterialQuantityUnits typeCode) /\
    MaterialQuantityUnit.Code qu = quantityUnit /\
    qu <> MaterialQuantityUnit.zero.
Proof.
  unfold validateQuantityUnit.
  destruct (MaterialType_Code materialType) as [typeCode|msg|msg]; cbn;
    try discriminate.
  destruct (MaterialQuantityUnit.eqb _ _) eqn:Hz; [discriminate|].
  intros [= <-]. exists typeCode.
  assert (Hnz : GetMaterialQuantityUnit typeCode quantityUnit
                <> MaterialQuantityUnit.zero).
  { intros Heq. apply MaterialQuantityUnit_eqb_eq in Heq. congruence. }
  unfold GetMaterialQuantityUnit in *.
  destruct (search_unit_found (MaterialQuantityUnits typeCode) quantityUnit)
    as [Hzero|[Hin Hcode]]; [contradiction|].
  auto.
Qed.

(** ** CreateMaterial *)

Lemma CreateMaterial_Ok_inv
    (newV4 : result UUID) (name price priceUnit : string)
    (materialType : MaterialType) (quantity : float32) (quantityUnit : string)
    (expirationDate : option Time) (notes producedBy : option string)
    (isExpense : option bool) (m : Material) :
  CreateMaterial newV4 name price priceUnit materialType quantity quantityUnit
    expirationDate notes producedBy isExpense = Ok m ->
  exists (uid : UUID) (money : MoneyValue) (qu : MaterialQuantityUnit.t),
    newV4 = Ok uid /\
    CreateMoney price priceUnit = Ok money /\
    validateQuantity quantity = None /\
    validateQuantityUnit quantityUnit materialType = Ok qu /\
    m = {| UID := uid;
           Name := name;
           PricePerUnit := Some money;
           Type_ := materialType;
           Quantity := MaterialQuantity.mk quantity qu;
           ExpirationDate := expirationDate;
           Notes := notes;
           IsExpense := isExpense;
           ProducedBy := producedBy;
           Version := 0;
           UncommittedChanges :=
             [EvMaterialCreated
                (created_event uid name money materialType quantity qu
                   expirationDate notes producedBy isExpense)] |}.
Proof.
  unfold CreateMaterial.
  destruct newV4 as [uid|msg|msg]; cbn; try discriminate.
  destruct (CreateMoney price priceUnit) as [money|msg|msg]; cbn;
    try discriminate.
  destruct materialType as [v|]; [|discriminate].
  destruct (validateQuantity quantity) as [msg|]; [discriminate|].
  destruct (validateQuantityUnit quantityUnit (Some v)) as [qu|msg|msg]; cbn;
    try discriminate.
  intros [= <-]. exists uid, money, qu. repeat split.
Qed.

(** C5. When [CreateMaterial] succeeds, the aggregate holds the single
    MaterialCreated event it emitted and each of its nine state fields
    equals the field of the same name of that event. *)
Theorem CreateMaterial_state_equals_event :
  forall (newV4 : result UUID) (name price priceUnit : string)
         (materialType : MaterialType) (quantity : float32)
         (quantityUnit : string) (expirationDate : option Time)
         (notes producedBy : option string) (isExpense : option bool)
         (m : Material),
    CreateMaterial newV4 name price priceUnit materialType quantity
      quantityUnit expirationDate notes producedBy isExpense = Ok m ->
    exists e : MaterialCreated.t,
      UncommittedChanges m = [EvMaterialCreated e] /\
      fields_of_event m e.
Proof.
  intros * Hcreate.
  apply CreateMaterial_Ok_inv in Hcreate
    as (uid & money & qu & _ & _ & _ & _ & ->).
  eexists. split; [reflexivity|]. repeat split.
Qed.

(** When [CreateMaterial] succeeds the unit it stores, which is also the
    unit of the event, is an allowed unit of the material type and has
    the code passed in. *)
Lemma CreateMaterial_unit_allowed
    (newV4 : result UUID) (name price priceUnit : string)
    (materialType : MaterialType) (quantity : float32) (quantityUnit : string)
    (expirationDate : option Time) (notes producedBy : option string)
    (isExpense : option bool) (m : Material) :
  CreateMaterial newV4 name price priceUnit materialType quantity quantityUnit
    expirationDate notes producedBy isExpense = Ok m ->
  exists typeCode : string,
    MaterialType_Code materialType = Ok typeCode /\
    In (MaterialQuantity.Unit (Quantity m)) (MaterialQuantityUnits typeCode) /\
    MaterialQuantityUnit.Code (MaterialQuantity.Unit (Quantity m)) = quantityUnit /\
    MaterialQuantity.Unit (Quantity m) <> MaterialQuantityUnit.zero.
Proof.
  intros Hcreate.
  apply CreateMaterial_Ok_inv in Hcreate
    as (uid & money & qu & _ & _ & _ & Hqu & ->).
  apply validateQuantityUnit_Ok_inv in Hqu
    as (typeCode & Hcode & _ & Hin & Hc & Hnz).
  exists typeCode. cbn. auto.
Qed.

(** ** Commands *)

(** A command returns without touching the aggregate when its
    validation fails or panics, and tracks the one event of [emitted]
    otherwise. *)
Lemma run_command_emitted (m : Material) (c : Command) :
  run_command m c
  = match emitted m c with
    | Ok event => (TrackChange m event, Ok tt)
    | Err msg => (m, Err msg)
    | Panic msg => (m, Panic msg)
    end.
Proof.
  destruct c as [name|price priceUnit|quantity quantityUnit materialType]; cbn.
  - unfold ChangeName.
    destruct (String.eqb name ""); [reflexivity|].
    destruct (String.length name <=? 5)%nat; reflexivity.
  - unfold ChangePricePerUnit.
    destruct (CreateMoney price priceUnit); reflexivity.
  - unfold ChangeQuantityUnit.
    destruct (validateQuantity quantity); [reflexivity|].
    destruct (validateQuantityUnit quantityUnit materialType); reflexivity.
Qed.

(** Only the call [materialType.Code()] of [ChangeQuantityUnit] makes a
    command panic. *)
Lemma emitted_Panic (m : Material) (c : Command) (msg : string) :
  emitted m c = Panic msg ->
  exists quantity quantityUnit materialType,
    c = CmdChangeQuantityUnit quantity quantityUnit materialType /\
    validateQuantity quantity = None /\
    MaterialType_Code materialType = Panic msg.
Proof.
  destruct c as [name|price priceUnit|quantity quantityUnit materialType]; cbn.
  - destruct (String.eqb name ""); [discriminate|].
    destruct (String.length name <=? 5)%nat; discriminate.
  - unfold CreateMoney.
    destruct (String.eqb price ""); [discriminate|].
    destruct (String.eqb priceUnit _); discriminate.
  - destruct (validateQuantity quantity) eqn:Hq; [discriminate|].
    unfold validateQuantityUnit.
    destruct (MaterialType_Code materialType) as [typeCode|e|e] eqn:Hcode; cbn.
    + destruct (MaterialQuantityUnit.eqb _ _); discriminate.
    + discriminate.
    + intros [= <-]. exists quantity, quantityUnit, materialType. auto.
Qed.

(** C4. The claim says that every command either fails with a
    validation error or succeeds. [ChangeQuantityUnit] calls
    [materialType.Code()] without the nil check [CreateMaterial] makes:
    with a valid quantity and a nil material type the call panics (the
    aggregate is left as it was). *)
Theorem ChangeQuantityUnit_nil_type_panics :
  forall (m : Material) (quantityUnit : string),
    ChangeQuantityUnit m float32_50 quantityUnit None
    = (m, Panic nil_dereference).
Proof. reflexivity. Qed.

(** A nil pointer held in the interface passes the nil check of
    [CreateMaterial], and [Code()] panics on it in both functions. *)
Example nil_pointer_panics :
  CreateMaterial (Ok sample_uid) "Tomato Seeds" "5.00" "EUR" NilSeedPointer
    float32_50 "KILOGRAM" None None None None = Panic nil_pointer_method /\
  ChangeQuantityUnit tomato_seeds float32_50 "KILOGRAM" NilSeedPointer
  = (tomato_seeds, Panic nil_pointer_method).
Proof. split; reflexivity. Qed.

(** The nil interface is refused with an error by [CreateMaterial]. *)
Example CreateMaterial_nil_type_refused :
  CreateMaterial (Ok sample_uid) "Tomato Seeds" "5.00" "EUR" None
    float32_50 "KILOGRAM" None None None None = Err "cannot be empty".
Proof. reflexivity. Qed.

Lemma ChangeQuantityUnit_Ok_inv (m m' : Material) (quantity : float32)
    (quantityUnit : string) (materialType : MaterialType) :
  ChangeQuantityUnit m quantity quantityUnit materialType = (m', Ok tt) ->
  exists qu : MaterialQuantityUnit.t,
    validateQuantity quantity = None /\
    validateQuantityUnit quantityUnit materialType = Ok qu /\
    m' = TrackChange m
           (EvMaterialQuantityChanged
              (MaterialQuantityChanged.mk (UID m)
                 (MaterialQuantity.mk quantity qu))).
Proof.
  unfold ChangeQuantityUnit.
  destruct (validateQuantity quantity); [discriminate|].
  destruct (validateQuantityUnit quantityUnit materialType) as [qu|msg|msg];
    try discriminate.
  intros [= <-]. eauto.
Qed.

(** The event a successful [ChangeQuantityUnit] appends carries an
    allowed unit of the material type passed in, with the code asked. *)
Lemma ChangeQuantityUnit_event_unit_allowed (m m' : Material)
    (quantity : float32) (quantityUnit : string) (materialType : MaterialType) :
  ChangeQuantityUnit m quantity quantityUnit materialType = (m', Ok tt) ->
  exists (typeCode : string) (qu : MaterialQuantityUnit.t),
    MaterialType_Code materialType = Ok typeCode /\
    UncommittedChanges m'
    = UncommittedChanges m
        ++ [EvMaterialQuantityChanged
              (MaterialQuantityChanged.mk (UID m)
                 (MaterialQuantity.mk quantity qu))] /\
    In qu (MaterialQuantityUnits typeCode) /\
    MaterialQuantityUnit.Code qu = quantityUnit /\
    qu <> MaterialQuantityUnit.zero.
Proof.
  intros Hchange.
  apply ChangeQuantityUnit_Ok_inv in Hchange as (qu & _ & Hqu & ->).
  apply validateQuantityUnit_Ok_inv in Hqu
    as (typeCode & Hcode & _ & Hin & Hc & Hnz).
  exists typeCode, qu. rewrite TrackChange_UncommittedChanges. auto.
Qed.

(** Between the commands only [CreateMaterial]'s event changes a state
    field: a successful [ChangeQuantityUnit] leaves all nine as they were. *)
Lemma TrackChange_change_event_fields (m : Material) (c : Command) (event : Event) :
  emitted m c = Ok event -> same_fields (TrackChange m event) m.
Proof.
  destruct c as [name|price priceUnit|quantity quantityUnit materialType]; cbn.
  - destruct (String.eqb name ""); [discriminate|].
    destruct (String.length name <=? 5)%nat; [discriminate|].
    intros [= <-]. repeat split.
  - destruct (CreateMoney price priceUnit); cbn; try discriminate.
    intros [= <-]. repeat split.
  - destruct (validateQuantity quantity); [discriminate|].
    destruct (validateQuantityUnit quantityUnit materialType); cbn;
      try discriminate.
    intros [= <-]. repeat split.
Qed.

(** C2, as the code has it. After a successful [CreateMaterial] the
    aggregate holds exactly one uncommitted event, the MaterialCreated
    event, and its [Version] is 0 (nothing writes [Version]); after a
    subsequent successful [ChangeQuantityUnit] two events are recorded,
    the MaterialCreated event and then a MaterialQuantityChanged event
    carrying the aggregate's uid and the new quantity, and no field
    other than the quantity has changed: the uid, the name, the price
    per unit, the type, the expiration date, the notes, the is-expense
    flag and the producer are those of the aggregate before the call,
    and [Version] is still 0. *)
Theorem create_then_change_quantity :
  forall (newV4 : result UUID) (name price priceUnit : string)
         (materialType : MaterialType) (quantity : float32)
         (quantityUnit : string) (expirationDate : option Time)
         (notes producedBy : option string) (isExpense : option bool)
         (m : Material),
    CreateMaterial newV4 name price priceUnit materialType quantity
      quantityUnit expirationDate notes producedBy isExpense = Ok m ->
    exists created : MaterialCreated.t,
      UncommittedChanges m = [EvMaterialCreated created] /\
      Version m = 0%Z /\
      forall (quantity' : float32) (quantityUnit' : string)
             (materialType' : MaterialType) (m' : Material),
        ChangeQuantityUnit m quantity' quantityUnit' materialType' = (m', Ok tt) ->
        exists qu : MaterialQuantityUnit.t,
          validateQuantityUnit quantityUnit' materialType' = Ok qu /\
          UncommittedChanges m'
          = [EvMaterialCreated created;
             EvMaterialQuantityChanged
               (MaterialQuantityChanged.mk (UID m)
                  (MaterialQuantity.mk quantity' qu))] /\
          length (UncommittedChanges m') = 2%nat /\
          UID m' = UID m /\
          Name m' = Name m /\
          PricePerUnit m' = PricePerUnit m /\
          Type_ m' = Type_ m /\
          ExpirationDate m' = ExpirationDate m /\
          Notes m' = Notes m /\
          IsExpense m' = IsExpense m /\
          ProducedBy m' = ProducedBy m /\
          Version m' = 0%Z.
Proof.
  intros * Hcreate.
  apply CreateMaterial_Ok_inv in Hcreate
    as (uid & money & qu & _ & _ & _ & _ & ->).
  eexists. split; [reflexivity|]. split; [reflexivity|].
  intros quantity' quantityUnit' materialType' m' Hchange.
  apply ChangeQuantityUnit_Ok_inv in Hchange as (qu' & _ & Hqu' & ->).
  exists qu'. split; [exact Hqu'|]. repeat split.
Qed.

(** C10. The claim asks that a successful [ChangeQuantityUnit] stores
    the resolved unit in the aggregate's quantity. On the aggregate of
    the tomato seeds, [ChangeQuantityUnit(50, "KILOGRAM", SeedType)]
    succeeds and appends an event carrying the kilogram unit, and the
    unit stored in the aggregate is still the seeds unit, whose code is
    not the "KILOGRAM" passed in: the fold has no case for the event. *)
Theorem ChangeQuantityUnit_stored_unit_stale :
  exists m' : Material,
    ChangeQuantityUnit tomato_seeds float32_50 "KILOGRAM" SeedType = (m', Ok tt) /\
    UncommittedChanges m'
    = [EvMaterialCreated tomato_created;
       EvMaterialQuantityChanged kilogram_changed] /\
    Quantity m' = MaterialQuantity.mk float32_100 unit_seeds /\
    MaterialQuantityUnit.Code (MaterialQuantity.Unit (Quantity m')) <> "KILOGRAM".
Proof.
  eexists. split; [reflexivity|]. repeat split. discriminate.
Qed.

(** On the zero-value aggregate the successful command leaves the
    zero-value unit in the state. *)
Example ChangeQuantityUnit_zero_unit_kept :
  exists m' : Material,
    ChangeQuantityUnit Material_zero float32_50 "KILOGRAM" SeedType = (m', Ok tt) /\
    MaterialQuantity.Unit (Quantity m') = MaterialQuantityUnit.zero.
Proof. eexists. split; reflexivity. Qed.

(** ** Replay *)

Lemma replay_app (events : list Event) (event : Event) :
  replay (events ++ [event]) = Transition (replay events) event.
Proof. unfold replay. now rewrite fold_left_app. Qed.

(** The fold reads nothing but the event and the state fields: it maps
    states with the same fields to states with the same fields. *)
Lemma Transition_same_fields (a b : Material) (event : Event) :
  same_fields a b -> same_fields (Transition a event) (Transition b event).
Proof.
  intros Hab. destruct event; cbn; [repeat split| | | |]; exact Hab.
Qed.

Lemma TrackChange_replayable (m : Material) (event : Event) :
  replayable m -> replayable (TrackChange m event).
Proof.
  unfold replayable. intros Hm.
  rewrite TrackChange_UncommittedChanges, replay_app.
  unfold TrackChange. apply Transition_same_fields. exact Hm.
Qed.

Lemma run_command_replayable (m m' : Material) (c : Command) (r : result unit) :
  run_command m c = (m', r) -> replayable m -> replayable m'.
Proof.
  rewrite run_command_emitted.
  destruct (emitted m c) as [event|msg|msg]; intros [= <- <-] Hm;
    [apply TrackChange_replayable|..]; exact Hm.
Qed.

Lemma run_commands_replayable (cs : list Command) :
  forall (m m' : Material) (r : result unit),
    run_commands m cs = (m', r) -> replayable m -> replayable m'.
Proof.
  induction cs as [|c rest IH]; cbn; intros m m' r Hrun Hm.
  - now injection Hrun as <- <-.
  - destruct (run_command m c) as [m1 [[]|msg|msg]] eqn:Hc.
    + eapply IH; [exact Hrun|]. eapply run_command_replayable; eauto.
    + injection Hrun as <- <-. eapply run_command_replayable; eauto.
    + injection Hrun as <- <-. eapply run_command_replayable; eauto.
Qed.

Lemma CreateMaterial_replayable
    (newV4 : result UUID) (name price priceUnit : string)
    (materialType : MaterialType) (quantity : float32) (quantityUnit : string)
    (expirationDate : option Time) (notes producedBy : option string)
    (isExpense : option bool) (m : Material) :
  CreateMaterial newV4 name price priceUnit materialType quantity quantityUnit
    expirationDate notes producedBy isExpense = Ok m ->
  replayable m.
Proof.
  intros Hcreate.
  apply CreateMaterial_Ok_inv in Hcreate
    as (uid & money & qu & _ & _ & _ & _ & ->).
  repeat split.
Qed.

(** C3. For [CreateMaterial] followed by any sequence of [ChangeName],
    [ChangePricePerUnit] and [ChangeQuantityUnit] calls that all
    succeed, folding the events of the buffer with [Transition] from
    the zero Material gives the same uid, name, price per unit, type,
    quantity, expiration date, notes, is-expense flag and producer as
    the aggregate the commands were applied to. *)
Theorem replay_equivalence :
  forall (newV4 : result UUID) (name price priceUnit : string)
         (materialType : MaterialType) (quantity : float32)
         (quantityUnit : string) (expirationDate : option Time)
         (notes producedBy : option string) (isExpense : option bool)
         (created : Material) (cs : list Command) (final : Material),
    CreateMaterial newV4 name price priceUnit materialType quantity
      quantityUnit expirationDate notes producedBy isExpense = Ok created ->
    run_commands created cs = (final, Ok tt) ->
    same_fields (fold_left Transition (UncommittedChanges final) Material_zero)
      final.
Proof.
  intros * Hcreate Hrun.
  apply (run_commands_replayable cs created final (Ok tt) Hrun).
  eapply CreateMaterial_replayable. exact Hcreate.
Qed.

(** The buffer of a successful run holds the creation event and one
    event per command. *)
Lemma run_commands_length (cs : list Command) :
  forall (m m' : Material),
    run_commands m cs = (m', Ok tt) ->
    length (UncommittedChanges m') = (length (UncommittedChanges m) + length cs)%nat.
Proof.
  induction cs as [|c rest IH]; cbn; intros m m' Hrun.
  - injection Hrun as <-. lia.
  - rewrite run_command_emitted in Hrun.
    destruct (emitted m c) as [event|msg|msg]; try discriminate.
    apply IH in Hrun. rewrite TrackChange_UncommittedChanges, length_app in Hrun.
    cbn in Hrun. lia.
Qed.

End Properties.

(** * The properties on concrete inputs *)

Lemma create_then_change_quantity_witness :
  CreateMaterial (codes := tania_codes) (Ok sample_uid) "Tomato Seeds" "5.00"
    "EUR" SeedType float32_100 "SEEDS" None None None None = Ok tomato_seeds /\
  ChangeQuantityUnit (codes := tania_codes) tomato_seeds float32_50 "KILOGRAM"
    SeedType = (tomato_kilogram, Ok tt) /\
  length (UncommittedChanges tomato_seeds) = 1%nat /\
  Version tomato_seeds = 0%Z /\
  length (UncommittedChanges tomato_kilogram) = 2%nat /\
  UID tomato_kilogram = UID tomato_seeds /\
  Name tomato_kilogram = Name tomato_seeds /\
  PricePerUnit tomato_kilogram = PricePerUnit tomato_seeds /\
  Type_ tomato_kilogram = Type_ tomato_seeds /\
  ExpirationDate tomato_kilogram = ExpirationDate tomato_seeds /\
  Notes tomato_kilogram = Notes tomato_seeds /\
  IsExpense tomato_kilogram = IsExpense tomato_seeds /\
  ProducedBy tomato_kilogram = ProducedBy tomato_seeds /\
  Version tomato_kilogram = 0%Z.
Proof.
  destruct (@create_then_change_quantity tania_codes (Ok sample_uid)
              "Tomato Seeds" "5.00" "EUR" SeedType float32_100 "SEEDS"
              None None None None tomato_seeds eq_refl)
    as (created & Hbuffer & Hversion & Hnext).
  destruct (Hnext float32_50 "KILOGRAM" SeedType tomato_kilogram eq_refl)
    as (qu & _ & _ & Hlen & Hframe).
  refine (conj eq_refl (conj eq_refl (conj _ (conj Hversion (conj Hlen
            Hframe))))).
  exact (f_equal (@length Event) Hbuffer).
Defined.

(** C2 as stated fails on the end-to-end example: after the creation
    and after the quantity change [Version] is 0, so it does not count
    the applied change, and the quantity of the aggregate is still 100
    seeds, not the 50 kilograms of the command. *)
Lemma create_then_change_quantity_counterexample :
  CreateMaterial (codes := tania_codes) (Ok sample_uid) "Tomato Seeds" "5.00"
    "EUR" SeedType float32_100 "SEEDS" None None None None = Ok tomato_seeds /\
  ChangeQuantityUnit (codes := tania_codes) tomato_seeds float32_50 "KILOGRAM"
    SeedType = (tomato_kilogram, Ok tt) /\
  Version tomato_seeds = Version Material_zero /\
  Version tomato_seeds <> 1%Z /\
  Quantity tomato_kilogram = Quantity tomato_seeds /\
  Quantity tomato_kilogram <> MaterialQuantity.mk float32_50 unit_kilogram.
Proof.
  repeat split; discriminate.
Qed.

Lemma replay_equivalence_witness :
  CreateMaterial (codes := tania_codes) (Ok sample_uid) "Tomato Seeds" "5.00"
    "EUR" SeedType float32_100 "SEEDS" None None None None = Ok tomato_seeds /\
  run_commands (codes := tania_codes) tomato_seeds sample_commands
  = (tomato_final, Ok tt) /\
  same_fields (fold_left Transition (UncommittedChanges tomato_final) Material_zero)
    tomato_final.
Proof.
  split; [reflexivity|]. split; [reflexivity|].
  apply (@replay_equivalence tania_codes (Ok sample_uid) "Tomato Seeds" "5.00"
           "EUR" SeedType float32_100 "SEEDS" None None None None
           tomato_seeds sample_commands tomato_final);
    reflexivity.
Defined.

Lemma CreateMaterial_state_equals_event_witness :
  CreateMaterial (codes := tania_codes) (Ok sample_uid) "Tomato Seeds" "5.00"
    "EUR" SeedType float32_100 "SEEDS" None None None None = Ok tomato_seeds /\
  exists e : MaterialCreated.t,
    UncommittedChanges tomato_seeds = [EvMaterialCreated e] /\
    fields_of_event tomato_seeds e.
Proof.
  split; [reflexivity|].
  apply (@CreateMaterial_state_equals_event tania_codes (Ok sample_uid)
           "Tomato Seeds" "5.00" "EUR" SeedType float32_100 "SEEDS"
           None None None None tomato_seeds).
  reflexivity.
Defined.

Lemma ChangeName_validation_witness :
  ChangeName tomato_seeds "" = (tomato_seeds, Err "cannot be empty") /\
  ChangeName tomato_seeds "abcde" = (tomato_seeds, Err "too few characters") /\
  exists m' : Material,
    ChangeName tomato_seeds "abcdef" = (m', Ok tt) /\
    UncommittedChanges m'
    = [EvMaterialCreated tomato_created;
       EvMaterialNameChanged (MaterialNameChanged.mk sample_uid "abcdef")].
Proof.
  split; [|split].
  - apply (ChangeName_validation tomato_seeds ""). reflexivity.
  - apply (ChangeName_validation tomato_seeds "abcde"); [discriminate|cbn; lia].
  - apply (ChangeName_validation tomato_seeds "abcdef"). cbn. lia.
Defined.

Lemma CreateMoney_contract_witness :
  CreateMoney "" "EUR" = Err "price cannot be empty" /\
  CreateMoney "10.50" "XYZ" = Err "money not found" /\
  exists money : MoneyValue,
    CreateMoney "10.50" "EUR" = Ok money /\
    Money_Amount money = "10.50" /\
    Money_Symbol money = "€" /\
    Money_Code money = "EUR".
Proof.
  split; [|split].
  - apply (CreateMoney_contract "" "EUR"). reflexivity.
  - apply (CreateMoney_contract "10.50" "XYZ"); discriminate.
  - apply (CreateMoney_contract "10.50" "EUR"); [discriminate|reflexivity].
Defined.

Lemma GetMaterialQuantityUnit_lookup_witness :
  (forall v, In v (MaterialQuantityUnits (codes := tania_codes) "SEED") ->
             MaterialQuantityUnit.Code v <> "BAGS") /\
  GetMaterialQuantityUnit (codes := tania_codes) "SEED" "BAGS"
  = MaterialQuantityUnit.zero /\
  unrecognized (codes := tania_codes) "FERTILIZER" /\
  GetMaterialQuantityUnit (codes := tania_codes) "FERTILIZER" "GRAM"
  = MaterialQuantityUnit.zero.
Proof.
  assert (Habsent : forall v,
             In v (MaterialQuantityUnits (codes := tania_codes) "SEED") ->
             MaterialQuantityUnit.Code v <> "BAGS").
  { cbn. intros v [<-|[<-|[<-|[<-|[]]]]]; discriminate. }
  assert (Hunknown : unrecognized (codes := tania_codes) "FERTILIZER").
  { repeat split; discriminate. }
  destruct (@GetMaterialQuantityUnit_lookup tania_codes)
    as (_ & Hnotin & Hunrec & _ & _).
  split; [exact Habsent|]. split; [exact (Hnotin "SEED" "BAGS" Habsent)|].
  split; [exact Hunknown|]. exact (Hunrec "FERTILIZER" "GRAM" Hunknown).
Defined.

Lemma validateQuantity_positive_witness :
  (exists v : Q,
     float32_value float32_0_01 = Some v /\ (0 < v)%Q /\
     validateQuantity float32_0_01 = None) /\
  (exists v : Q,
     float32_value float32_neg_one = Some v /\ (v <= 0)%Q /\
     validateQuantity float32_neg_one <> None).
Proof.
  split.
  - eexists. split; [reflexivity|]. split; [reflexivity|].
    destruct (validateQuantity_positive float32_0_01) as (_ & _ & _ & _ & Hpos & _).
    apply (Hpos _ eq_refl). reflexivity.
  - eexists. split; [reflexivity|]. split; [discriminate|].
    destruct (validateQuantity_positive float32_neg_one) as (_ & _ & _ & Hneg & _).
    apply (Hneg _ eq_refl). discriminate.
Defined.

(** * Further properties of the units table, the commands and the fold *)

Section Coverage.
Context {codes : MaterialTypeCodes}.
Local Open Scope list_scope.

(** ** The units table *)

Lemma MaterialQuantityUnits_cases (materialTypeCode : string) :
  In (MaterialQuantityUnits materialTypeCode) unit_tables.
Proof.
  unfold MaterialQuantityUnits.
  repeat match goal with
         | |- context [String.eqb ?a ?b] =>
             destruct (String.eqb a b); cbv beta iota
         end;
    cbn; tauto.
Qed.

(** Case analysis on the slice [MaterialQuantityUnits t] returns. *)
Ltac by_table t :=
  let Ht := fresh "Ht" in
  let l := fresh "l" in
  pose proof (MaterialQuantityUnits_cases t) as Ht;
  set (l := MaterialQuantityUnits t) in *; clearbody l;
  cbn in Ht;
  destruct Ht as [<-|[<-|[<-|[<-|[<-|[<-|[]]]]]]].

(** X1. Every slice of allowed units has at most four units, with distinct
    codes; each unit has a non-empty label and its code is one of the
    nine unit-code constants, so it is never the zero-value unit that
    [validateQuantityUnit] reads as "not found". *)
Theorem MaterialQuantityUnits_well_formed :
  forall materialTypeCode : string,
    (length (MaterialQuantityUnits materialTypeCode) <= 4)%nat /\
    NoDup (map MaterialQuantityUnit.Code (MaterialQuantityUnits materialTypeCode)) /\
    Forall (fun u => In (MaterialQuantityUnit.Code u) unit_codes /\
                     MaterialQuantityUnit.Code u <> "" /\
                     MaterialQuantityUnit.Label u <> "")
           (MaterialQuantityUnits materialTypeCode) /\
    ~ In MaterialQuantityUnit.zero (MaterialQuantityUnits materialTypeCode).
Proof.
  intros t. by_table t; cbn.
  all: split; [lia|].
  all: split; [repeat constructor; cbn; intuition discriminate|].
  all: split; [repeat constructor; cbn; solve [tauto | discriminate]|].
  all: intuition discriminate.
Qed.

Lemma MaterialQuantityUnits_lookup_member (materialTypeCode : string)
    (u : MaterialQuantityUnit.t) :
  In u (MaterialQuantityUnits materialTypeCode) ->
  GetMaterialQuantityUnit materialTypeCode (MaterialQuantityUnit.Code u) = u.
Proof.
  unfold GetMaterialQuantityUnit.
  by_table materialTypeCode; cbn; intuition (subst; reflexivity).
Qed.

Lemma MaterialQuantityUnits_no_zero (materialTypeCode : string)
    (u : MaterialQuantityUnit.t) :
  In u (MaterialQuantityUnits materialTypeCode) ->
  MaterialQuantityUnit.eqb u MaterialQuantityUnit.zero = false.
Proof.
  by_table materialTypeCode; cbn; intuition (subst; reflexivity).
Qed.

(** X2. Looking up the code of an allowed unit of a type gives that unit
    back, and a lookup that does not return the zero-value unit returns
    an allowed unit with the code asked for. *)
Theorem GetMaterialQuantityUnit_member_iff :
  forall (materialTypeCode code : string) (u : MaterialQuantityUnit.t),
    (In u (MaterialQuantityUnits materialTypeCode) /\
     MaterialQuantityUnit.Code u = code)
    <->
    (GetMaterialQuantityUnit materialTypeCode code = u /\
     u <> MaterialQuantityUnit.zero).
Proof.
  intros t code u. split.
  - intros [Hin <-]. split.
    + now apply MaterialQuantityUnits_lookup_member.
    + intros ->.
      apply MaterialQuantityUnits_no_zero in Hin. discriminate.
  - intros [<- Hnz]. unfold GetMaterialQuantityUnit in *.
    destruct (search_unit_found (MaterialQuantityUnits t) code)
      as [Hz|Hfound]; [contradiction|exact Hfound].
Qed.

(** X3. A unit code has one label in the whole table: two allowed units
    with the same code, of whatever material types, are the same unit. *)
Theorem unit_label_determined_by_code :
  forall (t1 t2 : string) (u1 u2 : MaterialQuantityUnit.t),
    In u1 (MaterialQuantityUnits t1) ->
    In u2 (MaterialQuantityUnits t2) ->
    MaterialQuantityUnit.Code u1 = MaterialQuantityUnit.Code u2 ->
    u1 = u2.
Proof.
  intros t1 t2 u1 u2.
  by_table t1; by_table t2; cbn;
    intuition (subst; cbn in *; try reflexivity; discriminate).
Qed.

(** ** validateQuantityUnit *)

(** X4. For a material type on which [Code()] returns (so not the nil
    interface), [validateQuantityUnit] returns a unit
    exactly when it is an allowed unit of the type with the code given,
    and the error "Cannot be empty" exactly when no allowed unit of the
    type has that code; it never returns another error or panics. *)
Theorem validateQuantityUnit_allowed_iff :
  forall (quantityUnit : string) (materialType : MaterialType) (typeCode : string),
    MaterialType_Code materialType = Ok typeCode ->
    (forall qu : MaterialQuantityUnit.t,
       validateQuantityUnit quantityUnit materialType = Ok qu <->
       (In qu (MaterialQuantityUnits typeCode) /\
        MaterialQuantityUnit.Code qu = quantityUnit)) /\
    (validateQuantityUnit quantityUnit materialType = Err "Cannot be empty" <->
     (forall u, In u (MaterialQuantityUnits typeCode) ->
                MaterialQuantityUnit.Code u <> quantityUnit)) /\
    (forall msg, validateQuantityUnit quantityUnit materialType <> Panic msg) /\
    (forall msg, validateQuantityUnit quantityUnit materialType = Err msg ->
                 msg = "Cannot be empty").
Proof.
  intros quantityUnit materialType typeCode Hcode.
  unfold validateQuantityUnit. rewrite Hcode. cbn.
  unfold GetMaterialQuantityUnit.
  destruct (search_unit_found (MaterialQuantityUnits typeCode) quantityUnit)
    as [Hz|[Hin Hc]].
  - rewrite Hz. cbn.
    split; [intros qu; split|split; [split|split]].
    + discriminate.
    + intros [Hin <-].
      pose proof (MaterialQuantityUnits_lookup_member _ _ Hin) as Hl.
      unfold GetMaterialQuantityUnit in Hl. rewrite Hz in Hl. subst qu.
      apply MaterialQuantityUnits_no_zero in Hin. discriminate.
    + intros _ u Hin Hu.
      pose proof (MaterialQuantityUnits_lookup_member _ _ Hin) as Hl.
      unfold GetMaterialQuantityUnit in Hl. rewrite Hu, Hz in Hl. subst u.
      apply MaterialQuantityUnits_no_zero in Hin. discriminate.
    + reflexivity.
    + discriminate.
    + intros msg [= <-]. reflexivity.
  - rewrite (MaterialQuantityUnits_no_zero _ _ Hin).
    split; [intros qu; split|split; [split|split]].
    + intros [= <-]. split; [exact Hin|exact Hc].
    + intros [Hin' Hc'].
      pose proof (MaterialQuantityUnits_lookup_member _ _ Hin') as Hl.
      unfold GetMaterialQuantityUnit in Hl. rewrite Hc' in Hl.
      now rewrite Hl.
    + discriminate.
    + intros Habs. exfalso. exact (Habs _ Hin Hc).
    + discriminate.
    + discriminate.
Qed.

Lemma validateQuantityUnit_member (materialType : MaterialType)
    (typeCode : string) (qu : MaterialQuantityUnit.t) :
  MaterialType_Code materialType = Ok typeCode ->
  In qu (MaterialQuantityUnits typeCode) ->
  validateQuantityUnit (MaterialQuantityUnit.Code qu) materialType = Ok qu.
Proof.
  intros Hcode Hin. unfold validateQuantityUnit. rewrite Hcode. cbn.
  rewrite (MaterialQuantityUnits_lookup_member _ _ Hin).
  now rewrite (MaterialQuantityUnits_no_zero _ _ Hin).
Qed.

Lemma validateQuantityUnit_Err_inv (quantityUnit : string)
    (materialType : MaterialType) (msg : string) :
  validateQuantityUnit quantityUnit materialType = Err msg ->
  msg = "Cannot be empty" /\
  exists typeCode : string,
    MaterialType_Code materialType = Ok typeCode /\
    forall u, In u (MaterialQuantityUnits typeCode) ->
              MaterialQuantityUnit.Code u <> quantityUnit.
Proof.
  unfold validateQuantityUnit.
  destruct (MaterialType_Code materialType) as [typeCode|e|e] eqn:Hcode; cbn.
  2: { intros [= <-]. exfalso. revert Hcode. unfold MaterialType_Code.
       destruct materialType as [v|]; [|discriminate].
       destruct (TypeCode _); discriminate. }
  2: discriminate.
  destruct (MaterialQuantityUnit.eqb _ _) eqn:Hz; [|discriminate].
  intros [= <-]. split; [reflexivity|].
  exists typeCode. split; [reflexivity|].
  intros u Hin Hu.
  apply MaterialQuantityUnit_eqb_eq in Hz.
  rewrite <- Hu, (MaterialQuantityUnits_lookup_member _ _ Hin) in Hz.
  apply MaterialQuantityUnits_no_zero in Hin.
  subst u. discriminate.
Qed.

Lemma validateQuantityUnit_Panic_inv (quantityUnit : string)
    (materialType : MaterialType) (msg : string) :
  validateQuantityUnit quantityUnit materialType = Panic msg ->
  MaterialType_Code materialType = Panic msg.
Proof.
  unfold validateQuantityUnit.
  destruct (MaterialType_Code materialType) as [typeCode|e|e]; cbn.
  - destruct (MaterialQuantityUnit.eqb _ _); discriminate.
  - discriminate.
  - intros [= <-]. reflexivity.
Qed.

(** The call of [Code()] returns a code or panics; on the nil interface
    it panics with the nil dereference. *)
Lemma MaterialType_Code_cases (materialType : MaterialType) :
  (exists typeCode, materialType <> None /\
                    MaterialType_Code materialType = Ok typeCode) \/
  (exists msg, MaterialType_Code materialType = Panic msg /\
               (materialType = None -> msg = nil_dereference)).
Proof.
  destruct materialType as [v|]; cbn.
  - destruct (TypeCode _) as [code|msg]; [left|right].
    + exists code. split; [discriminate|reflexivity].
    + exists msg. split; [reflexivity|discriminate].
  - right. exists nil_dereference. auto.
Qed.

Lemma validateQuantity_None (quantity : float32) :
  validateQuantity quantity = None <-> float32_le quantity float32_zero = false.
Proof.
  unfold validateQuantity.
  destruct (float32_le quantity float32_zero); split; congruence.
Qed.

Lemma validateQuantity_Some (quantity : float32) (msg : string) :
  validateQuantity quantity = Some msg ->
  float32_le quantity float32_zero = true /\ msg = "Cannot be empty".
Proof.
  unfold validateQuantity.
  destruct (float32_le quantity float32_zero); [|discriminate].
  intros [= <-]. auto.
Qed.

Lemma CreateMoney_EUR (price : string) :
  price <> "" -> CreateMoney price "EUR" = Ok (mkMoney (mkEUR price)).
Proof.
  intros Hp. unfold CreateMoney.
  apply String.eqb_neq in Hp. now rewrite Hp.
Qed.

Lemma CreateMoney_Err_inv (price priceUnit msg : string) :
  CreateMoney price priceUnit = Err msg ->
  (price = "" /\ msg = "price cannot be empty") \/
  (price <> "" /\ priceUnit <> "EUR" /\ msg = "money not found").
Proof.
  unfold CreateMoney.
  destruct (String.eqb_spec price "") as [->|Hp].
  - intros [= <-]. auto.
  - cbn [Code EUR_Money]. unfold MoneyEUR.
    destruct (String.eqb_spec priceUnit "EUR") as [->|Hu]; [discriminate|].
    intros [= <-]. auto.
Qed.

(** ** CreateMaterial *)

(** X7. [CreateMaterial] succeeds exactly when the identifier was generated,
    the price is not empty, the price unit is "EUR", [Code()] returns
    on the material type (which is then not the nil interface),
    [quantity <= 0] is false and the quantity unit is the code of an
    allowed unit of the type. The aggregate returned then
    holds the generated uid, the inputs as given, an EUR price with the
    amount given, the resolved unit, version 0 and the one creation
    event; neither the name nor the optional attributes are checked. *)
Theorem CreateMaterial_succeeds_iff :
  forall (newV4 : result UUID) (name price priceUnit : string)
         (materialType : MaterialType) (quantity : float32)
         (quantityUnit : string) (expirationDate : option Time)
         (notes producedBy : option string) (isExpense : option bool)
         (m : Material),
    CreateMaterial newV4 name price priceUnit materialType quantity
      quantityUnit expirationDate notes producedBy isExpense = Ok m
    <->
    exists (uid : UUID) (typeCode : string) (qu : MaterialQuantityUnit.t),
      newV4 = Ok uid /\
      price <> "" /\
      priceUnit = "EUR" /\
      MaterialType_Code materialType = Ok typeCode /\
      float32_le quantity float32_zero = false /\
      In qu (MaterialQuantityUnits typeCode) /\
      MaterialQuantityUnit.Code qu = quantityUnit /\
      m = {| UID := uid;
             Name := name;
             PricePerUnit := Some (mkMoney (mkEUR price));
             Type_ := materialType;
             Quantity := MaterialQuantity.mk quantity qu;
             ExpirationDate := expirationDate;
             Notes := notes;
             IsExpense := isExpense;
             ProducedBy := producedBy;
             Version := 0;
             UncommittedChanges :=
               [EvMaterialCreated
                  (created_event uid name (mkMoney (mkEUR price)) materialType
                     quantity qu expirationDate notes producedBy isExpense)] |}.
Proof.
  intros. split.
  - intros Hcreate.
    apply CreateMaterial_Ok_inv in Hcreate
      as (uid & money & qu & -> & Hmoney & Hq & Hqu & ->).
    apply CreateMoney_Ok_inv in Hmoney as (Hp & -> & ->).
    apply validateQuantity_None in Hq.
    apply validateQuantityUnit_Ok_inv in Hqu
      as (typeCode & Hcode & _ & Hin & Hc & _).
    exists uid, typeCode, qu. repeat split; assumption.
  - intros (uid & typeCode & qu & -> & Hp & -> & Hcode & Hq & Hin & <- & ->).
    unfold CreateMaterial. cbn [bind].
    rewrite (CreateMoney_EUR price Hp). cbn [bind].
    destruct materialType as [v|]; [|discriminate].
    apply validateQuantity_None in Hq. rewrite Hq.
    rewrite (validateQuantityUnit_member _ _ _ Hcode Hin). reflexivity.
Qed.

(** X8. [CreateMaterial] returns the error of [uuid.NewV4] first. Once
    the identifier was generated it reports the first check that
    fails, in the order price, price unit, material type, quantity,
    quantity unit, with the messages of the source. The nil material
    type is refused with an error; the call panics exactly when price,
    price unit and quantity pass their checks and [Code()] panics on a
    material type that is not the nil interface (a nil pointer held in
    the interface, which the nil check lets through). *)
Theorem CreateMaterial_failure_cases :
  forall (uid : UUID) (name price priceUnit : string)
         (materialType : MaterialType) (quantity : float32)
         (quantityUnit : string) (expirationDate : option Time)
         (notes producedBy : option string) (isExpense : option bool),
    (forall (e : string),
       CreateMaterial (Err e) name price priceUnit materialType quantity
         quantityUnit expirationDate notes producedBy isExpense = Err e) /\
    (forall msg : string,
       CreateMaterial (Ok uid) name price priceUnit materialType quantity
         quantityUnit expirationDate notes producedBy isExpense = Panic msg
       <->
       (price <> "" /\ priceUnit = "EUR" /\ materialType <> None /\
        float32_le quantity float32_zero = false /\
        MaterialType_Code materialType = Panic msg)) /\
    (forall msg : string,
       CreateMaterial (Ok uid) name price priceUnit materialType quantity
         quantityUnit expirationDate notes producedBy isExpense = Err msg ->
       (price = "" /\ msg = "price cannot be empty") \/
       (price <> "" /\ priceUnit <> "EUR" /\ msg = "money not found") \/
       (price <> "" /\ priceUnit = "EUR" /\ materialType = None /\
        msg = "cannot be empty") \/
       (price <> "" /\ priceUnit = "EUR" /\ materialType <> None /\
        float32_le quantity float32_zero = true /\ msg = "Cannot be empty") \/
       (price <> "" /\ priceUnit = "EUR" /\
        float32_le quantity float32_zero = false /\
        (exists typeCode : string,
           MaterialType_Code materialType = Ok typeCode /\
           forall u, In u (MaterialQuantityUnits typeCode) ->
                     MaterialQuantityUnit.Code u <> quantityUnit) /\
        msg = "Cannot be empty")).
Proof.
  intros. split; [reflexivity|].
  unfold CreateMaterial. cbn [bind].
  destruct (CreateMoney price priceUnit) as [money|e|e] eqn:Hmoney; cbn [bind].
  - apply CreateMoney_Ok_inv in Hmoney as (Hp & -> & ->).
    destruct materialType as [v|].
    + destruct (validateQuantity quantity) as [e|] eqn:Hq.
      * apply validateQuantity_Some in Hq as [Hq ->].
        split.
        -- intros msg. split; [discriminate|].
           intros (_ & _ & _ & Hq' & _). congruence.
        -- intros msg [= <-].
           right; right; right; left. repeat split; auto. discriminate.
      * apply validateQuantity_None in Hq.
        destruct (validateQuantityUnit quantityUnit (Some v)) as [qu|e|e] eqn:Hqu;
          cbn [bind].
        -- apply validateQuantityUnit_Ok_inv in Hqu as (t & Hcode & _).
           split; [|discriminate].
           intros msg. split; [discriminate|].
           intros (_ & _ & _ & _ & Hpanic). congruence.
        -- apply validateQuantityUnit_Err_inv in Hqu as [-> Habsent].
           split.
           ++ intros msg. split; [discriminate|].
              destruct Habsent as (t & Hcode & _).
              intros (_ & _ & _ & _ & Hpanic). congruence.
           ++ intros msg [= <-]. right; right; right; right. auto.
        -- apply validateQuantityUnit_Panic_inv in Hqu.
           split; [|discriminate].
           intros msg. split.
           ++ intros [= <-]. repeat split; auto; discriminate.
           ++ intros (_ & _ & _ & _ & Hpanic). congruence.
    + split.
      * intros msg. split; [discriminate|].
        intros (_ & _ & Hnil & _). contradiction.
      * intros msg [= <-]. right; right; left. auto.
  - split.
    + intros msg. split; [discriminate|].
      intros (Hp & Hu & _).
      apply CreateMoney_Err_inv in Hmoney as [[-> _]|(_ & Hu' & _)];
        contradiction.
    + intros msg [= <-].
      apply CreateMoney_Err_inv in Hmoney as [[-> ->]|(Hp & Hu & ->)]; auto.
  - exfalso. revert Hmoney. unfold CreateMoney.
    destruct (String.eqb price ""); [discriminate|].
    destruct (String.eqb priceUnit _); discriminate.
Qed.

(** X9. The quantity a successful [CreateMaterial] stores is the value
    given, for which [quantity <= 0] is false: when it is a zero or
    finite float32 it stands for a strictly positive number. *)
Theorem CreateMaterial_quantity_positive :
  forall (newV4 : result UUID) (name price priceUnit : string)
         (materialType : MaterialType) (quantity : float32)
         (quantityUnit : string) (expirationDate : option Time)
         (notes producedBy : option string) (isExpense : option bool)
         (m : Material),
    CreateMaterial newV4 name price priceUnit materialType quantity
      quantityUnit expirationDate notes producedBy isExpense = Ok m ->
    MaterialQuantity.Value (Quantity m) = quantity /\
    float32_le quantity float32_zero = false /\
    forall v : Q, float32_value quantity = Some v -> (0 < v)%Q.
Proof.
  intros * Hcreate.
  apply CreateMaterial_Ok_inv in Hcreate
    as (uid & money & qu & _ & _ & Hq & _ & ->).
  apply validateQuantity_None in Hq.
  split; [reflexivity|]. split; [exact Hq|].
  intros v Hv. apply Qnot_le_lt. intros Hle.
  apply (float32_value_nonpositive _ _ Hv) in Hle. congruence.
Qed.

(** X10. [CreateMaterial] does not look at the name: when it succeeds with
    one name it succeeds with any other, the empty name included, and
    the two aggregates differ only by the name. *)
Theorem CreateMaterial_name_unchecked :
  forall (newV4 : result UUID) (name name' price priceUnit : string)
         (materialType : MaterialType) (quantity : float32)
         (quantityUnit : string) (expirationDate : option Time)
         (notes producedBy : option string) (isExpense : option bool)
         (m : Material),
    CreateMaterial newV4 name price priceUnit materialType quantity
      quantityUnit expirationDate notes producedBy isExpense = Ok m ->
    exists m' : Material,
      CreateMaterial newV4 name' price priceUnit materialType quantity
        quantityUnit expirationDate notes producedBy isExpense = Ok m' /\
      Name m' = name' /\
      UID m' = UID m /\ PricePerUnit m' = PricePerUnit m /\
      Type_ m' = Type_ m /\ Quantity m' = Quantity m /\
      ExpirationDate m' = ExpirationDate m /\ Notes m' = Notes m /\
      IsExpense m' = IsExpense m /\ ProducedBy m' = ProducedBy m.
Proof.
  intros * Hcreate.
  apply CreateMaterial_Ok_inv in Hcreate
    as (uid & money & qu & -> & Hmoney & Hq & Hqu & ->).
  unfold CreateMaterial. cbn [bind]. rewrite Hmoney. cbn [bind].
  destruct materialType as [v|]; [|discriminate Hqu].
  rewrite Hq, Hqu. cbn [bind].
  eexists. split; [reflexivity|]. repeat split.
Qed.

(** X5. An empty quantity-unit code resolves to no unit of any material
    type: neither [CreateMaterial] nor [ChangeQuantityUnit] succeeds
    with it. *)
Theorem empty_unit_code_rejected :
  (forall materialTypeCode : string,
     GetMaterialQuantityUnit materialTypeCode "" = MaterialQuantityUnit.zero) /\
  (forall (newV4 : result UUID) (name price priceUnit : string)
          (materialType : MaterialType) (quantity : float32)
          (expirationDate : option Time) (notes producedBy : option string)
          (isExpense : option bool) (m : Material),
     CreateMaterial newV4 name price priceUnit materialType quantity ""
       expirationDate notes producedBy isExpense <> Ok m) /\
  (forall (m m' : Material) (quantity : float32) (materialType : MaterialType),
     ChangeQuantityUnit m quantity "" materialType <> (m', Ok tt)).
Proof.
  assert (Hget : forall t, GetMaterialQuantityUnit t "" = MaterialQuantityUnit.zero).
  { intros t. unfold GetMaterialQuantityUnit. by_table t; reflexivity. }
  assert (Hval : forall mt qu, validateQuantityUnit "" mt <> Ok qu).
  { intros mt qu Hqu.
    apply validateQuantityUnit_Ok_inv in Hqu as (t & _ & -> & _ & _ & Hnz).
    apply Hnz, Hget. }
  split; [exact Hget|]. split.
  - intros * Hcreate.
    apply CreateMaterial_Ok_inv in Hcreate as (uid & money & qu & _ & _ & _ & Hqu & _).
    exact (Hval _ _ Hqu).
  - intros m m' quantity materialType Hchange.
    apply ChangeQuantityUnit_Ok_inv in Hchange as (qu & _ & Hqu & _).
    exact (Hval _ _ Hqu).
Qed.

(** X6. For a material type whose code is none of the eight known codes
    every quantity unit is refused: [validateQuantityUnit] and
    [ChangeQuantityUnit] return the error "Cannot be empty" and
    [CreateMaterial] never succeeds. *)
Theorem unrecognized_type_rejected :
  forall (materialType : MaterialType) (typeCode : string),
    MaterialType_Code materialType = Ok typeCode ->
    unrecognized typeCode ->
    (forall quantityUnit : string,
       validateQuantityUnit quantityUnit materialType = Err "Cannot be empty") /\
    (forall (m : Material) (quantity : float32) (quantityUnit : string),
       ChangeQuantityUnit m quantity quantityUnit materialType
       = (m, Err "Cannot be empty")) /\
    (forall (newV4 : result UUID) (name price priceUnit : string)
            (quantity : float32) (quantityUnit : string)
            (expirationDate : option Time) (notes producedBy : option string)
            (isExpense : option bool) (m : Material),
       CreateMaterial newV4 name price priceUnit materialType quantity
         quantityUnit expirationDate notes producedBy isExpense <> Ok m).
Proof.
  intros materialType typeCode Hcode Hun.
  assert (Hval : forall quantityUnit,
             validateQuantityUnit quantityUnit materialType = Err "Cannot be empty").
  { intros quantityUnit. unfold validateQuantityUnit, GetMaterialQuantityUnit.
    rewrite Hcode. cbn.
    now rewrite (MaterialQuantityUnits_unrecognized typeCode Hun). }
  split; [exact Hval|]. split.
  - intros m quantity quantityUnit. unfold ChangeQuantityUnit.
    rewrite Hval. unfold validateQuantity.
    destruct (float32_le quantity float32_zero); reflexivity.
  - intros * Hcreate.
    apply CreateMaterial_Ok_inv in Hcreate as (uid & money & qu & _ & _ & _ & Hqu & _).
    rewrite Hval in Hqu. discriminate.
Qed.

(** ** Commands *)

Lemma emitted_Ok_event (m : Material) (c : Command) (event : Event) :
  emitted m c = Ok event ->
  is_MaterialCreated event = false /\ Event_UID event = Some (UID m).
Proof.
  destruct c as [name|price priceUnit|quantity quantityUnit materialType]; cbn.
  - destruct (String.eqb name ""); [discriminate|].
    destruct (String.length name <=? 5)%nat; [discriminate|].
    intros [= <-]. split; reflexivity.
  - destruct (CreateMoney price priceUnit); cbn; try discriminate.
    intros [= <-]. split; reflexivity.
  - destruct (validateQuantity quantity); [discriminate|].
    destruct (validateQuantityUnit quantityUnit materialType); cbn;
      try discriminate.
    intros [= <-]. split; reflexivity.
Qed.

(** X11. Each command either returns an error, or panics, or returns
    nil. On an error and on a panic the aggregate is left as it was;
    only [ChangeQuantityUnit] can panic, when the call
    [materialType.Code()] does. On nil exactly one event was appended
    to the buffer: it is not a creation event and carries the uid of
    the aggregate, whose uid and version are unchanged. *)
Theorem command_all_or_nothing :
  forall (m : Material) (c : Command),
    (exists msg : string, run_command m c = (m, Err msg)) \/
    (exists (msg : string) (quantity : float32) (quantityUnit : string)
            (materialType : MaterialType),
       c = CmdChangeQuantityUnit quantity quantityUnit materialType /\
       MaterialType_Code materialType = Panic msg /\
       run_command m c = (m, Panic msg)) \/
    (exists (m' : Material) (event : Event),
       run_command m c = (m', Ok tt) /\
       UncommittedChanges m' = UncommittedChanges m ++ [event] /\
       is_MaterialCreated event = false /\
       Event_UID event = Some (UID m) /\
       UID m' = UID m /\
       Version m' = Version m).
Proof.
  intros m c. rewrite run_command_emitted.
  destruct (emitted m c) as [event|msg|msg] eqn:Hem.
  - right; right. exists (TrackChange m event), event.
    split; [reflexivity|].
    split; [apply TrackChange_UncommittedChanges|].
    split; [|split; [|split; [|apply TrackChange_Version]]].
    + exact (proj1 (emitted_Ok_event m c event Hem)).
    + exact (proj2 (emitted_Ok_event m c event Hem)).
    + destruct (TrackChange_change_event_fields m c event Hem) as [Huid _].
      exact Huid.
  - left. eauto.
  - right; left.
    apply emitted_Panic in Hem
      as (quantity & quantityUnit & materialType & -> & _ & Hcode).
    exists msg, quantity, quantityUnit, materialType. auto.
Qed.


(** X14. [ChangePricePerUnit] succeeds exactly on a non-empty price in
    "EUR": it then appends one MaterialPriceChanged event carrying the
    uid of the aggregate and an EUR price with the amount given.
    Otherwise it returns the error of [CreateMoney] and leaves the
    aggregate as it was. *)
Theorem ChangePricePerUnit_outcome :
  forall (m : Material) (price priceUnit : string),
    (price = "" ->
       ChangePricePerUnit m price priceUnit = (m, Err "price cannot be empty")) /\
    (price <> "" -> priceUnit <> "EUR" ->
       ChangePricePerUnit m price priceUnit = (m, Err "money not found")) /\
    (price <> "" -> priceUnit = "EUR" ->
       exists m' : Material,
         ChangePricePerUnit m price priceUnit = (m', Ok tt) /\
         UncommittedChanges m'
         = UncommittedChanges m
             ++ [EvMaterialPriceChanged
                   (MaterialPriceChanged.mk (UID m)
                      (Some (mkMoney (mkEUR price))))]) /\
    (forall m' : Material,
       ChangePricePerUnit m price priceUnit = (m', Ok tt) ->
       price <> "" /\ priceUnit = "EUR").
Proof.
  intros m price priceUnit. unfold ChangePricePerUnit.
  split; [|split; [|split]].
  - intros ->. reflexivity.
  - intros Hp Hu. unfold CreateMoney.
    apply String.eqb_neq in Hp. rewrite Hp.
    cbn [Code EUR_Money]. unfold MoneyEUR.
    apply String.eqb_neq in Hu. now rewrite Hu.
  - intros Hp ->. rewrite (CreateMoney_EUR price Hp).
    eexists. split; [reflexivity|]. apply TrackChange_UncommittedChanges.
  - intros m'.
    destruct (CreateMoney price priceUnit) as [money|e|e] eqn:Hmoney;
      try discriminate.
    intros _. apply CreateMoney_Ok_inv in Hmoney as (Hp & Hu & _). auto.
Qed.

(** X13. [ChangeQuantityUnit] succeeds exactly when [quantity <= 0] is false
    and the quantity unit is the code of an allowed unit of the
    material type passed in; the type of the aggregate itself is not
    consulted. The aggregate after the call is the one [TrackChange]
    gives for the MaterialQuantityChanged event with the aggregate's
    uid, the quantity and the resolved unit. *)
Theorem ChangeQuantityUnit_succeeds_iff :
  forall (m m' : Material) (quantity : float32) (quantityUnit : string)
         (materialType : MaterialType),
    ChangeQuantityUnit m quantity quantityUnit materialType = (m', Ok tt)
    <->
    exists (typeCode : string) (qu : MaterialQuantityUnit.t),
      MaterialType_Code materialType = Ok typeCode /\
      float32_le quantity float32_zero = false /\
      In qu (MaterialQuantityUnits typeCode) /\
      MaterialQuantityUnit.Code qu = quantityUnit /\
      m' = TrackChange m
             (EvMaterialQuantityChanged
                (MaterialQuantityChanged.mk (UID m)
                   (MaterialQuantity.mk quantity qu))).
Proof.
  intros. split.
  - intros Hchange.
    apply ChangeQuantityUnit_Ok_inv in Hchange as (qu & Hq & Hqu & ->).
    apply validateQuantity_None in Hq.
    apply validateQuantityUnit_Ok_inv in Hqu
      as (typeCode & Hcode & _ & Hin & Hc & _).
    exists typeCode, qu. auto.
  - intros (typeCode & qu & Hcode & Hq & Hin & <- & ->).
    unfold ChangeQuantityUnit.
    apply validateQuantity_None in Hq. rewrite Hq.
    now rewrite (validateQuantityUnit_member _ _ _ Hcode Hin).
Qed.

(** ** The buffer over a sequence of commands *)

Lemma run_commands_buffer (cs : list Command) :
  forall (m m' : Material) (r : result unit),
    run_commands m cs = (m', r) ->
    exists events : list Event,
      UncommittedChanges m' = UncommittedChanges m ++ events /\
      (length events <= length cs)%nat /\
      (r = Ok tt -> length events = length cs) /\
      Forall (fun event => is_MaterialCreated event = false /\
                           Event_UID event = Some (UID m)) events /\
      UID m' = UID m /\
      Version m' = Version m.
Proof.
  induction cs as [|c rest IH]; cbn; intros m m' r Hrun.
  - injection Hrun as <- <-. exists []. rewrite app_nil_r.
    repeat split; auto.
  - rewrite run_command_emitted in Hrun.
    destruct (emitted m c) as [event|msg|msg] eqn:Hem.
    + apply IH in Hrun
        as (events & Hbuf & Hle & Hlen & Hall & Huid & Hver).
      destruct (TrackChange_change_event_fields m c event Hem) as [Huid' _].
      exists (event :: events).
      rewrite TrackChange_UncommittedChanges, <- app_assoc in Hbuf.
      rewrite TrackChange_Version in Hver. rewrite Huid' in Huid, Hall.
      split; [exact Hbuf|]. split; [cbn; lia|].
      split; [intros Hr; cbn; now rewrite (Hlen Hr)|].
      split; [|split; assumption].
      constructor; [exact (emitted_Ok_event m c event Hem)|exact Hall].
    + injection Hrun as <- <-. exists []. rewrite app_nil_r.
      repeat split; auto; try discriminate. cbn; lia.
    + injection Hrun as <- <-. exists []. rewrite app_nil_r.
      repeat split; auto; try discriminate. cbn; lia.
Qed.

(** X15. Running commands one after the other only appends to the buffer:
    the events already recorded stay in place, at most one event is
    added per command and exactly one per command when all succeed;
    the uid and the version of the aggregate do not change. *)
Theorem command_sequence_appends :
  forall (cs : list Command) (m m' : Material) (r : result unit),
    run_commands m cs = (m', r) ->
    exists events : list Event,
      UncommittedChanges m' = UncommittedChanges m ++ events /\
      (length events <= length cs)%nat /\
      (r = Ok tt -> length events = length cs) /\
      UID m' = UID m /\
      Version m' = Version m.
Proof.
  intros cs m m' r Hrun.
  apply run_commands_buffer in Hrun
    as (events & Hbuf & Hle & Hlen & _ & Huid & Hver).
  exists events. auto.
Qed.

(** X16. The buffer of an aggregate made by [CreateMaterial] and then sent
    any commands starts with its creation event and holds no other
    creation event, and every event in it carries the uid that was
    generated, which is the uid of the aggregate. *)
Theorem created_aggregate_events :
  forall (newV4 : result UUID) (name price priceUnit : string)
         (materialType : MaterialType) (quantity : float32)
         (quantityUnit : string) (expirationDate : option Time)
         (notes producedBy : option string) (isExpense : option bool)
         (created : Material) (cs : list Command) (final : Material)
         (r : result unit),
    CreateMaterial newV4 name price priceUnit materialType quantity
      quantityUnit expirationDate notes producedBy isExpense = Ok created ->
    run_commands created cs = (final, r) ->
    newV4 = Ok (UID final) /\
    Forall (fun event => Event_UID event = Some (UID final))
           (UncommittedChanges final) /\
    exists (e : MaterialCreated.t) (events : list Event),
      UncommittedChanges final = EvMaterialCreated e :: events /\
      Forall (fun event => is_MaterialCreated event = false) events.
Proof.
  intros * Hcreate Hrun.
  apply CreateMaterial_Ok_inv in Hcreate
    as (uid & money & qu & -> & _ & _ & _ & ->).
  apply run_commands_buffer in Hrun
    as (events & Hbuf & _ & _ & Hall & Huid & _).
  cbn in Hbuf, Hall, Huid. rewrite Hbuf, Huid.
  split; [reflexivity|]. split.
  - constructor; [reflexivity|].
    eapply Forall_impl; [|exact Hall]. cbn. intros event [_ H]. exact H.
  - eexists. exists events. split; [reflexivity|].
    eapply Forall_impl; [|exact Hall]. cbn. intros event [H _]. exact H.
Qed.

(** ** The fold over event sequences *)

Lemma fold_Transition_same_fields (events : list Event) :
  forall a b : Material,
    same_fields a b ->
    same_fields (fold_left Transition events a) (fold_left Transition events b).
Proof.
  induction events as [|event rest IH]; cbn; intros a b Hab; [exact Hab|].
  apply IH. destruct event; cbn; [repeat split| | | |]; exact Hab.
Qed.

(** X17. Folding events with [Transition] never records them and never
    changes the version: the buffer and the version after the fold are
    those of the starting state. *)
Theorem fold_keeps_bookkeeping :
  forall (events : list Event) (state : Material),
    UncommittedChanges (fold_left Transition events state)
    = UncommittedChanges state /\
    Version (fold_left Transition events state) = Version state.
Proof.
  induction events as [|event rest IH]; cbn; intros state; [auto|].
  destruct (IH (Transition state event)) as [Hbuf Hver].
  rewrite Hbuf, Hver.
  split; [apply Transition_UncommittedChanges|apply Transition_Version].
Qed.

(** X18. A MaterialCreated event is a full snapshot: the state fields after
    folding a history depend neither on the starting state nor on the
    events that come before a creation event. *)
Theorem fold_from_creation_event :
  forall (before after : list Event) (e : MaterialCreated.t) (state : Material),
    same_fields
      (fold_left Transition (before ++ EvMaterialCreated e :: after) state)
      (fold_left Transition (EvMaterialCreated e :: after) Material_zero).
Proof.
  intros before after e state.
  rewrite fold_left_app. cbn [fold_left].
  apply fold_Transition_same_fields. repeat split.
Qed.

End Coverage.

(** * The further properties on concrete inputs *)

Local Open Scope list_scope.

Lemma GetMaterialQuantityUnit_member_iff_witness :
  In unit_gram (MaterialQuantityUnits (codes := tania_codes) "SEED") /\
  GetMaterialQuantityUnit (codes := tania_codes) "SEED" "GRAM" = unit_gram /\
  unit_gram <> MaterialQuantityUnit.zero.
Proof.
  assert (Hin : In unit_gram (MaterialQuantityUnits (codes := tania_codes) "SEED"))
    by (cbn; tauto).
  split; [exact Hin|].
  apply (@GetMaterialQuantityUnit_member_iff tania_codes "SEED" "GRAM" unit_gram).
  split; [exact Hin|reflexivity].
Defined.

Lemma unit_label_determined_by_code_witness :
  In unit_packets (MaterialQuantityUnits (codes := tania_codes) "SEED") /\
  In (MaterialQuantityUnit.mk "PACKETS" "Packets")
     (MaterialQuantityUnits (codes := tania_codes) "AGROCHEMICAL") /\
  unit_packets = MaterialQuantityUnit.mk "PACKETS" "Packets".
Proof.
  assert (H1 : In unit_packets (MaterialQuantityUnits (codes := tania_codes) "SEED"))
    by (cbn; tauto).
  assert (H2 : In (MaterialQuantityUnit.mk "PACKETS" "Packets")
                  (MaterialQuantityUnits (codes := tania_codes) "AGROCHEMICAL"))
    by (cbn; tauto).
  split; [exact H1|]. split; [exact H2|].
  exact (@unit_label_determined_by_code tania_codes "SEED" "AGROCHEMICAL"
           _ _ H1 H2 eq_refl).
Defined.

Lemma validateQuantityUnit_allowed_iff_witness :
  MaterialType_Code SeedType = Ok "SEED" /\
  validateQuantityUnit (codes := tania_codes) "GRAM" SeedType = Ok unit_gram /\
  validateQuantityUnit (codes := tania_codes) "BAGS" SeedType
  = Err "Cannot be empty".
Proof.
  split; [reflexivity|].
  destruct (@validateQuantityUnit_allowed_iff tania_codes "GRAM" SeedType "SEED"
              eq_refl) as (Hok & _).
  destruct (@validateQuantityUnit_allowed_iff tania_codes "BAGS" SeedType "SEED"
              eq_refl) as (_ & Herr & _).
  split.
  - apply Hok. split; [cbn; tauto|reflexivity].
  - apply Herr. cbn. intros u [<-|[<-|[<-|[<-|[]]]]]; discriminate.
Defined.

Lemma CreateMaterial_succeeds_iff_witness :
  CreateMaterial (codes := tania_codes) (Ok sample_uid) "Tomato Seeds" "5.00"
    "EUR" SeedType float32_100 "SEEDS" None None None None = Ok tomato_seeds.
Proof.
  apply (@CreateMaterial_succeeds_iff tania_codes).
  exists sample_uid, "SEED", unit_seeds.
  repeat split; try reflexivity; try discriminate.
  cbn; tauto.
Defined.

Lemma CreateMaterial_failure_cases_witness :
  CreateMaterial (codes := tania_codes) (Ok sample_uid) "Tomato Seeds" "5.00"
    "EUR" None float32_zero "BAGS" None None None None = Err "cannot be empty" /\
  "5.00" <> "" /\ None = (None : MaterialType) /\
  NilSeedPointer <> None /\
  CreateMaterial (codes := tania_codes) (Ok sample_uid) "Tomato Seeds" "5.00"
    "EUR" NilSeedPointer float32_100 "SEEDS" None None None None
  = Panic nil_pointer_method.
Proof.
  split; [reflexivity|].
  destruct (@CreateMaterial_failure_cases tania_codes sample_uid "Tomato Seeds"
              "5.00" "EUR" None float32_zero "BAGS" None None None None)
    as (_ & _ & Hcases).
  destruct (@CreateMaterial_failure_cases tania_codes sample_uid "Tomato Seeds"
              "5.00" "EUR" NilSeedPointer float32_100 "SEEDS" None None None None)
    as (_ & Hpanic & _).
  assert (Hnn : NilSeedPointer <> None) by discriminate.
  destruct (Hcases "cannot be empty" eq_refl)
    as [[Hp _]|[(_ & Hu & _)|[(Hp & _ & Hnil & _)|[(_ & _ & Hnn' & _)|(_ & _ & Hq & _)]]]].
  - discriminate Hp.
  - exfalso. apply Hu. reflexivity.
  - split; [exact Hp|]. split; [exact Hnil|]. split; [exact Hnn|].
    apply Hpanic. repeat split; [discriminate|exact Hnn].
  - exfalso. apply Hnn'. reflexivity.
  - discriminate Hq.
Defined.

Lemma CreateMaterial_quantity_positive_witness :
  CreateMaterial (codes := tania_codes) (Ok sample_uid) "Tomato Seeds" "5.00"
    "EUR" SeedType float32_100 "SEEDS" None None None None = Ok tomato_seeds /\
  float32_value float32_100 = Some (inject_Z 13107200 * 2 ^ (-17))%Q /\
  (0 < inject_Z 13107200 * 2 ^ (-17))%Q.
Proof.
  split; [reflexivity|]. split; [reflexivity|].
  destruct (@CreateMaterial_quantity_positive tania_codes (Ok sample_uid)
              "Tomato Seeds" "5.00" "EUR" SeedType float32_100 "SEEDS"
              None None None None tomato_seeds eq_refl) as (_ & _ & Hpos).
  exact (Hpos _ eq_refl).
Defined.

Lemma CreateMaterial_name_unchecked_witness :
  CreateMaterial (codes := tania_codes) (Ok sample_uid) "Tomato Seeds" "5.00"
    "EUR" SeedType float32_100 "SEEDS" None None None None = Ok tomato_seeds /\
  exists m' : Material,
    CreateMaterial (codes := tania_codes) (Ok sample_uid) "" "5.00"
      "EUR" SeedType float32_100 "SEEDS" None None None None = Ok m' /\
    Name m' = "" /\ UID m' = sample_uid.
Proof.
  split; [reflexivity|].
  destruct (@CreateMaterial_name_unchecked tania_codes (Ok sample_uid)
              "Tomato Seeds" "" "5.00" "EUR" SeedType float32_100 "SEEDS"
              None None None None tomato_seeds eq_refl)
    as (m' & Hcreate & Hname & Huid & _).
  exists m'. split; [exact Hcreate|]. split; [exact Hname|exact Huid].
Defined.

Lemma unrecognized_type_rejected_witness :
  MaterialType_Code FertilizerType = Ok "FERTILIZER" /\
  unrecognized (codes := tania_codes) "FERTILIZER" /\
  validateQuantityUnit (codes := tania_codes) "BAGS" FertilizerType
  = Err "Cannot be empty" /\
  ChangeQuantityUnit (codes := tania_codes) tomato_seeds float32_50 "BAGS"
    FertilizerType = (tomato_seeds, Err "Cannot be empty").
Proof.
  assert (Hun : unrecognized (codes := tania_codes) "FERTILIZER")
    by (repeat split; discriminate).
  destruct (@unrecognized_type_rejected tania_codes FertilizerType "FERTILIZER"
              eq_refl Hun) as (Hval & Hchange & _).
  split; [reflexivity|]. split; [exact Hun|].
  split; [apply Hval|apply Hchange].
Defined.


Lemma ChangePricePerUnit_outcome_witness :
  ChangePricePerUnit tomato_seeds "" "EUR"
  = (tomato_seeds, Err "price cannot be empty") /\
  ChangePricePerUnit tomato_seeds "6.00" "IDR"
  = (tomato_seeds, Err "money not found") /\
  exists m' : Material,
    ChangePricePerUnit tomato_seeds "6.00" "EUR" = (m', Ok tt) /\
    UncommittedChanges m'
    = UncommittedChanges tomato_seeds
        ++ [EvMaterialPriceChanged
              (MaterialPriceChanged.mk (UID tomato_seeds)
                 (Some (mkMoney (mkEUR "6.00"))))].
Proof.
  split; [|split].
  - apply (ChangePricePerUnit_outcome tomato_seeds "" "EUR"). reflexivity.
  - apply (ChangePricePerUnit_outcome tomato_seeds "6.00" "IDR"); discriminate.
  - apply (ChangePricePerUnit_outcome tomato_seeds "6.00" "EUR");
      [discriminate|reflexivity].
Defined.

Lemma ChangeQuantityUnit_succeeds_iff_witness :
  MaterialType_Code AgrochemicalType = Ok "AGROCHEMICAL" /\
  In unit_bottles (MaterialQuantityUnits (codes := tania_codes) "AGROCHEMICAL") /\
  MaterialType_Code (Type_ tomato_seeds) = Ok "SEED" /\
  ChangeQuantityUnit (codes := tania_codes) tomato_seeds float32_50 "BOTTLES"
    AgrochemicalType
  = (TrackChange tomato_seeds
       (EvMaterialQuantityChanged
          (MaterialQuantityChanged.mk sample_uid
             (MaterialQuantity.mk float32_50 unit_bottles))),
     Ok tt).
Proof.
  assert (Hin : In unit_bottles
                   (MaterialQuantityUnits (codes := tania_codes) "AGROCHEMICAL"))
    by (cbn; tauto).
  split; [reflexivity|]. split; [exact Hin|]. split; [reflexivity|].
  apply (@ChangeQuantityUnit_succeeds_iff tania_codes).
  exists "AGROCHEMICAL", unit_bottles.
  split; [reflexivity|]. split; [reflexivity|]. split; [exact Hin|].
  split; reflexivity.
Defined.

Lemma command_sequence_appends_witness :
  run_commands (codes := tania_codes) tomato_seeds sample_commands
  = (tomato_final, Ok tt) /\
  exists events : list Event,
    UncommittedChanges tomato_final = UncommittedChanges tomato_seeds ++ events /\
    (length events <= length sample_commands)%nat /\
    (Ok tt = Ok tt -> length events = length sample_commands) /\
    UID tomato_final = UID tomato_seeds /\
    Version tomato_final = Version tomato_seeds.
Proof.
  split; [reflexivity|].
  apply (@command_sequence_appends tania_codes sample_commands tomato_seeds
           tomato_final (Ok tt)).
  reflexivity.
Defined.

Lemma created_aggregate_events_witness :
  CreateMaterial (codes := tania_codes) (Ok sample_uid) "Tomato Seeds" "5.00"
    "EUR" SeedType float32_100 "SEEDS" None None None None = Ok tomato_seeds /\
  run_commands (codes := tania_codes) tomato_seeds sample_commands
  = (tomato_final, Ok tt) /\
  Forall (fun event => Event_UID event = Some (UID tomato_final))
         (UncommittedChanges tomato_final).
Proof.
  split; [reflexivity|]. split; [reflexivity|].
  apply (@created_aggregate_events tania_codes (Ok sample_uid) "Tomato Seeds"
           "5.00" "EUR" SeedType float32_100 "SEEDS" None None None None
           tomato_seeds sample_commands tomato_final (Ok tt) eq_refl eq_refl).
Defined.
